(** * Voice-of-customer analyzer: a shallow embedding of [src/analyzer.py]

    The program loads a CSV file into a pandas [DataFrame], formats the rows
    whose [signal_score] exceeds 7.0 into a prompt, sends the prompt to a
    remote summarizer and merges the answer with statistics computed over
    the whole table.

    Modelling choices.
    - A float64 value is either a number or NaN.  Numbers are rationals:
      arithmetic is exact, binary64 rounding and infinities are left out.
    - A [DataFrame] is a header with rows of cells, as the CSV file has it.
      A cell is a string or a float; a missing CSV field is NaN.
    - [str] of a float (the shortest round-tripping decimal) is a parameter
      of the development, [float_repr].
    - Exceptions are values of [exn]; effects (reading the file, calling the
      remote service, printing) are recorded in a trace.
    - pandas is modelled by what its operations return with their default
      arguments: [mean] skips NaN, [value_counts] drops NaN and sorts by
      descending count.  The sort behind [value_counts] is not stable, so
      the order it leaves equal counts in is not fixed by the program: the
      sort is a parameter, [sort_values], known only to return its input
      reordered by descending count.
    - One [MessagesCreate] event is one call of [client.messages.create];
      the HTTP requests the client makes for that call, its own retries
      included, happen inside the call and are not modelled. *)

From Stdlib Require Import List String Ascii Bool Arith ZArith QArith Qround Lia.
From Stdlib Require Import Qabs Sorted Permutation DecimalString.
Import ListNotations.

Set Implicit Arguments.

Local Open Scope string_scope.
Local Open Scope nat_scope.
Local Open Scope list_scope.

(** ** Python values and exceptions *)

Inductive exn : Type :=
| KeyError (key : string)
| TypeError (msg : string)
| SystemExit (code : Z)
| OtherError (msg : string).

Inductive result (A : Type) : Type :=
| Ok (a : A)
| Err (e : exn).

Arguments Ok {A} a.
Arguments Err {A} e.

Definition rbind {A B : Type} (r : result A) (k : A -> result B) : result B :=
  match r with
  | Ok a => k a
  | Err e => Err e
  end.

Notation "'let?' x ':=' r 'in' k" := (rbind r (fun x => k))
  (at level 10, x name, r at level 100, k at level 200).

(** A float64: a (rational) number, or NaN. *)
Inductive pyfloat : Type :=
| Num (q : Q)
| NaN.

(** A cell of a table read from CSV. *)
Inductive cell : Type :=
| CStr (s : string)
| CFloat (x : pyfloat).

Definition nl : string := String (ascii_of_nat 10) EmptyString.

(** ** The pandas operations the program uses *)

Definition Series : Type := list cell.

Record DataFrame : Type := mkDataFrame {
  columns : list string;
  values : list (list cell)
}.

(** Position of a label in the header. *)
Fixpoint get_loc (key : string) (cols : list string) : option nat :=
  match cols with
  | [] => None
  | c :: cs => if String.eqb key c then Some 0
               else option_map S (get_loc key cs)
  end.

(** [row[key]] for a row yielded by [iterrows]: a short row is padded with
    NaN, as the CSV reader does. *)
Definition row_getitem (cols : list string) (row : list cell) (key : string)
  : result cell :=
  match get_loc key cols with
  | Some i => Ok (nth i row (CFloat NaN))
  | None => Err (KeyError key)
  end.

(** [df[key]]: the column as a Series, or [KeyError]. *)
Definition getitem (df : DataFrame) (key : string) : result Series :=
  match get_loc key (columns df) with
  | Some i => Ok (map (fun row => nth i row (CFloat NaN)) (values df))
  | None => Err (KeyError key)
  end.

(** [len(df)]. *)
Definition len (df : DataFrame) : nat := List.length (values df).

Definition Qltb (a b : Q) : bool := negb (Qle_bool b a).

(** One comparison [x > threshold].  Comparing a string with a float raises;
    NaN compares false. *)
Definition cell_gt (threshold : Q) (c : cell) : result bool :=
  match c with
  | CStr _ => Err (TypeError "'>' not supported between instances of 'str' and 'float'")
  | CFloat (Num q) => Ok (Qltb threshold q)
  | CFloat NaN => Ok false
  end.

(** [series > threshold], element by element. *)
Fixpoint series_gt (s : Series) (threshold : Q) : result (list bool) :=
  match s with
  | [] => Ok []
  | c :: t =>
      let? b := cell_gt threshold c in
      let? bs := series_gt t threshold in
      Ok (b :: bs)
  end.

(** Keep the elements whose mask bit is set. *)
Fixpoint mask_select {A : Type} (mask : list bool) (l : list A) : list A :=
  match mask, l with
  | b :: m, x :: t => if b then x :: mask_select m t else mask_select m t
  | _, _ => []
  end.

(** [df[mask]]: boolean indexing keeps the rows, in order. *)
Definition getitem_mask (df : DataFrame) (mask : list bool) : DataFrame :=
  mkDataFrame (columns df) (mask_select mask (values df)).

(** [df.iterrows()]: the rows in table order (the index label is not used). *)
Definition iterrows (df : DataFrame) : list (list cell) := values df.

(** [series.mean()] with pandas' default [skipna=True]: NaN entries are
    left out of both the sum and the count; no entry left gives NaN. *)
Fixpoint nansum (s : Series) : result Q :=
  match s with
  | [] => Ok 0%Q
  | CStr _ :: _ => Err (TypeError "Could not convert string to numeric")
  | CFloat (Num q) :: t => let? acc := nansum t in Ok (q + acc)%Q
  | CFloat NaN :: t => nansum t
  end.

Definition notna (c : cell) : bool :=
  match c with
  | CFloat NaN => false
  | _ => true
  end.

Definition count_notna (s : Series) : nat := List.length (filter notna s).

Definition Qnat (n : nat) : Q := inject_Z (Z.of_nat n).

Definition mean (s : Series) : result pyfloat :=
  let? total := nansum s in
  match count_notna s with
  | O => Ok NaN
  | S _ as n => Ok (Num (total / Qnat n))
  end.

(** Equality of cells as the hash table of [value_counts] sees it. *)
Definition cell_eqb (a b : cell) : bool :=
  match a, b with
  | CStr s, CStr t => String.eqb s t
  | CFloat (Num p), CFloat (Num q) => Qeq_bool p q
  | CFloat NaN, CFloat NaN => true
  | _, _ => false
  end.

Section Counting.
Variable K : Type.
Variable eqb : K -> K -> bool.

(** One hash-table update: a known key has its counter incremented, a new
    key is appended, so keys stay in order of first appearance. *)
Fixpoint bump (k : K) (tbl : list (K * nat)) : list (K * nat) :=
  match tbl with
  | [] => [(k, 1)]
  | (k', n) :: t =>
      if eqb k k' then (k', S n) :: t else (k', n) :: bump k t
  end.

Definition count_table (l : list K) : list (K * nat) :=
  fold_left (fun tbl k => bump k tbl) l [].

(** Stable sort by descending count: an entry is placed before the first
    entry of the already sorted rest whose count is not larger. *)
Fixpoint insert_desc (x : K * nat) (l : list (K * nat)) : list (K * nat) :=
  match l with
  | [] => [x]
  | y :: t => if snd y <=? snd x then x :: y :: t else y :: insert_desc x t
  end.

Definition sort_desc (l : list (K * nat)) : list (K * nat) :=
  fold_right insert_desc [] l.

(** Number of entries of a list equal to [k]. *)
Definition occurrences (k : K) (l : list K) : nat :=
  List.length (filter (eqb k) l).

(** Position of the first entry equal to [k]; the length of the list when
    there is none. *)
Fixpoint first_index (k : K) (l : list K) : nat :=
  match l with
  | [] => 0
  | c :: t => if eqb k c then 0 else S (first_index k t)
  end.

(** What the table holds after the entries of [l] have been counted:
    every key is an entry of [l] with its number of occurrences, the keys
    are in order of first appearance, and every entry of [l] has a key. *)
Definition counted (l : list K) (tbl : list (K * nat)) : Prop :=
  (forall k n, In (k, n) tbl -> In k l /\ n = occurrences k l) /\
  StronglySorted (fun k1 k2 => first_index k1 l < first_index k2 l) (map fst tbl) /\
  (forall k, In k l -> exists k' n, In (k', n) tbl /\ eqb k k' = true).
End Counting.

Section Ranking.
Variable K : Type.
(** [earlier e1 e2]: the entry [e1] comes before [e2] in the table. *)
Variable earlier : K * nat -> K * nat -> Prop.

(** A larger count, or the same count and earlier in the table. *)
Definition ranked (e1 e2 : K * nat) : Prop :=
  snd e2 < snd e1 \/ (snd e1 = snd e2 /\ earlier e1 e2).
End Ranking.

(** [series.value_counts()] with the defaults [sort=True], [ascending=False],
    [dropna=True]: NaN is dropped, the remaining values are counted in a
    hash table that keeps them in order of first appearance, and the result
    is passed to [sort_values(ascending=False)].  That sort is pandas' and
    numpy's, with the default [kind='quicksort']: it is the parameter
    [sort_values] here. *)
Definition sorter : Type := list (cell * nat) -> list (cell * nat).

Definition value_counts (sort_values : sorter) (s : Series)
  : list (cell * nat) :=
  sort_values (count_table cell_eqb (filter notna s)).

(** What is known of the sort: it returns its input reordered, larger
    counts first.  The order of equal counts is left open. *)
Definition count_ge (e1 e2 : cell * nat) : Prop := snd e2 <= snd e1.

Definition sorts_descending (sort_values : sorter) : Prop :=
  forall l,
    Permutation (sort_values l) l /\
    StronglySorted count_ge (sort_values l).

(** Two sorts that fit: [stable_sort] keeps equal counts in the order of
    the input, [sort_ties_reversed] leaves them in the opposite order. *)
Definition stable_sort : sorter := fun l => sort_desc l.

Definition sort_ties_reversed : sorter := fun l => sort_desc (rev l).

(** [.head(n)] *)
Definition head {A : Type} (n : nat) (l : list A) : list A := firstn n l.

(** [.to_dict()]: a Python dict keeps insertion order, and the labels of a
    [value_counts] result are distinct, so the dict is the list of pairs. *)
Definition to_dict {A : Type} (l : list (A * nat)) : list (A * nat) := l.

(** ** Formatting numbers *)

Definition str_nat (n : nat) : string := NilZero.string_of_uint (Nat.to_uint n).

Definition str_Z (z : Z) : string := NilZero.string_of_int (Z.to_int z).

(** Nearest integer to a non-negative rational, ties to even. *)
Definition round_half_even (q : Q) : Z :=
  let f := Qfloor q in
  match Qcompare (q - inject_Z f) (1 # 2) with
  | Lt => f
  | Gt => (f + 1)%Z
  | Eq => if Z.even f then f else (f + 1)%Z
  end.

Definition two_digits (z : Z) : string :=
  if (z <? 10)%Z then ("0" ++ str_Z z)%string else str_Z z.

(** The format specification [:.2f]. *)
Definition format_2f (x : pyfloat) : string :=
  match x with
  | NaN => "nan"
  | Num q =>
      let n := round_half_even (Qabs q * 100) in
      ((if Qltb q 0 then "-" else EmptyString)
         ++ str_Z (n / 100) ++ "." ++ two_digits (n mod 100))%string
  end.

(** ** The analyzer *)

Record Signals : Type := mkSignals {
  summary : string;
  high_priority_count : nat;
  total_analyzed : nat;
  top_stages : list (cell * nat);
  avg_signal_score : pyfloat
}.

Definition header_line : string := "High-priority customer feedback:".

Section Analyzer.
(** [str] of a float64 number. *)
Variable float_repr : Q -> string.
(** The sort behind [value_counts]. *)
Variable sort_values : sorter.

Definition str_float (x : pyfloat) : string :=
  match x with
  | Num q => float_repr q
  | NaN => "nan"
  end.

Definition str_cell (c : cell) : string :=
  match c with
  | CStr s => s
  | CFloat x => str_float x
  end.

(** The body of the [for] loop of [_prepare_feedback]: one formatted line
    is appended.  The three fields are looked up in f-string order. *)
Definition append_row (cols : list string) (formatted : string)
    (row : list cell) : result string :=
  let? stage := row_getitem cols row "checkout_stage" in
  let? text := row_getitem cols row "feedback_text" in
  let? score := row_getitem cols row "signal_score" in
  Ok (formatted ++ "[" ++ str_cell stage ++ "] " ++ str_cell text
        ++ " (score: " ++ str_cell score ++ ")" ++ nl)%string.

Fixpoint for_rows (cols : list string) (rows : list (list cell))
    (formatted : string) : result string :=
  match rows with
  | [] => Ok formatted
  | row :: rest =>
      let? formatted' := append_row cols formatted row in
      for_rows cols rest formatted'
  end.

Definition _prepare_feedback (df : DataFrame) : result string :=
  let? scores := getitem df "signal_score" in
  let? mask := series_gt scores 7 in
  let high_signal := getitem_mask df mask in
  for_rows (columns high_signal) (iterrows high_signal)
    (header_line ++ nl ++ nl)%string.

Definition _extract_signals (analysis : string) (df : DataFrame)
  : result Signals :=
  let? scores := getitem df "signal_score" in
  let? mask := series_gt scores 7 in
  let high := len (getitem_mask df mask) in
  let total := len df in
  let? stages := getitem df "checkout_stage" in
  let top := to_dict (head 3 (value_counts sort_values stages)) in
  let? scores' := getitem df "signal_score" in
  let? avg := mean scores' in
  Ok (mkSignals analysis high total top avg).
End Analyzer.

(** ** Effects: the file system, the environment, the remote service *)

(** [MessagesCreate] records one call of [client.messages.create] with its
    arguments, not the HTTP requests the client makes for it. *)
Inductive event : Type :=
| ReadCsv (path : string)
| MessagesCreate (api_key : option string) (model : string)
    (max_tokens : nat) (role content : string)
| Print (text : string).

(** What the outside world answers. *)
Record World : Type := mkWorld {
  environ : string -> option string;
  files : string -> result DataFrame;
  service : option string -> string -> result (list string)
}.

(** A computation reads the world, extends the trace of events, and returns
    a value or raises. *)
Definition M (A : Type) : Type := World -> list event -> result A * list event.

Definition ret {A : Type} (a : A) : M A := fun _ tr => (Ok a, tr).

Definition raise {A : Type} (e : exn) : M A := fun _ tr => (Err e, tr).

Definition bind {A B : Type} (m : M A) (k : A -> M B) : M B :=
  fun w tr =>
    match m w tr with
    | (Ok a, tr') => k a w tr'
    | (Err e, tr') => (Err e, tr')
    end.

Notation "x <- m ;; k" := (bind m (fun x => k))
  (at level 61, m at next level, right associativity).
Notation "m ;;; k" := (bind m (fun _ => k))
  (at level 61, right associativity).

Definition lift {A : Type} (r : result A) : M A := fun _ tr => (r, tr).

Definition emit (ev : event) : M unit := fun _ tr => (Ok tt, tr ++ [ev]).

Definition ask : M World := fun w tr => (Ok w, tr).

Definition run {A : Type} (m : M A) (w : World) : result A * list event :=
  m w [].

(** [print(text)] *)
Definition print (text : string) : M unit := emit (Print text).

(** [pd.read_csv(path)] *)
Definition read_csv (path : string) : M DataFrame :=
  emit (ReadCsv path) ;;;
  w <- ask ;;
  lift (files w path).

(** Python's [a or b] on optional strings: [None] and the empty string are
    falsy. *)
Definition py_or (a b : option string) : option string :=
  match a with
  | Some EmptyString => b
  | Some s => Some s
  | None => b
  end.

(** The analyzer object holds the client, the client holds the key. *)
Record FeedbackAnalyzer : Type := mkFeedbackAnalyzer {
  client_api_key : option string
}.

Definition __init__ (api_key : option string) : M FeedbackAnalyzer :=
  w <- ask ;;
  ret (mkFeedbackAnalyzer (py_or api_key (environ w "ANTHROPIC_API_KEY"))).

Definition indent : string := "                ".

(** The f-string of [_call_claude_api]. *)
Definition prompt (feedback_text : string) : string :=
  ("Analyze this customer feedback and identify:" ++ nl
   ++ indent ++ "1. Top 3 themes or patterns" ++ nl
   ++ indent ++ "2. Urgent technical issues requiring attention" ++ nl
   ++ indent ++ "3. UX friction points" ++ nl
   ++ indent ++ nl
   ++ indent ++ "Customer Feedback:" ++ nl
   ++ indent ++ feedback_text ++ nl
   ++ indent ++ nl
   ++ indent ++ "Format your response as:" ++ nl
   ++ indent ++ "THEMES: [list themes]" ++ nl
   ++ indent ++ "URGENT ISSUES: [list critical problems]" ++ nl
   ++ indent ++ "UX FRICTION: [list usability problems]")%string.

(** [message.content[0].text] *)
Definition first_text (content : list string) : result string :=
  match content with
  | [] => Err (OtherError "list index out of range")
  | text :: _ => Ok text
  end.

Definition _call_claude_api (self : FeedbackAnalyzer) (feedback_text : string)
  : M string :=
  let content := prompt feedback_text in
  emit (MessagesCreate (client_api_key self) "claude-sonnet-4-20250514" 1500
          "user" content) ;;;
  w <- ask ;;
  message <- lift (service w (client_api_key self) content) ;;
  lift (first_text message).

Section Program.
Variable float_repr : Q -> string.
Variable sort_values : sorter.

Definition analyze_batch (self : FeedbackAnalyzer) (csv_path : string)
  : M Signals :=
  df <- read_csv csv_path ;;
  feedback_text <- lift (_prepare_feedback float_repr df) ;;
  analysis <- _call_claude_api self feedback_text ;;
  signals <- lift (_extract_signals sort_values analysis df) ;;
  ret signals.

Fixpoint print_stages (items : list (cell * nat)) : M unit :=
  match items with
  | [] => ret tt
  | (stage, count) :: rest =>
      print ("  - " ++ str_cell float_repr stage ++ ": " ++ str_nat count)%string ;;;
      print_stages rest
  end.

(** The [__main__] block, run with [sys.argv = argv]. *)
Definition main (argv : list string) : M unit :=
  if List.length argv <? 2 then
    print "Usage: python analyzer.py <path_to_feedback.csv>" ;;;
    raise (SystemExit 1)
  else
    let csv_path := nth 1 argv EmptyString in
    print ("Analyzing feedback from: " ++ csv_path)%string ;;;
    analyzer <- __init__ None ;;
    results <- analyze_batch analyzer csv_path ;;
    print (nl ++ "=== Analysis Results ===")%string ;;;
    print ("Total entries analyzed: " ++ str_nat (total_analyzed results))%string ;;;
    print ("High-priority signals: " ++ str_nat (high_priority_count results))%string ;;;
    print ("Average signal score: " ++ format_2f (avg_signal_score results))%string ;;;
    print (nl ++ "Top checkout stages:")%string ;;;
    print_stages (top_stages results) ;;;
    print (nl ++ "=== Claude Analysis ===")%string ;;;
    print (summary results).
End Program.

(** The exit status of the process: an uncaught exception ends it with 1. *)
Definition exit_status {A : Type} (r : result A) : Z :=
  match r with
  | Ok _ => 0
  | Err (SystemExit code) => code
  | Err _ => 1
  end.

(** ** Vocabulary of the specification *)

(** A score is above the 7.0 threshold. *)
Definition above_threshold (c : cell) : bool :=
  match c with
  | CFloat (Num q) => Qltb 7 q
  | _ => false
  end.

(** The field of a row under a column label. *)
Definition field (cols : list string) (row : list cell) (key : string) : cell :=
  match get_loc key cols with
  | Some i => nth i row (CFloat NaN)
  | None => CFloat NaN
  end.

Definition stage_of (df : DataFrame) (row : list cell) : cell :=
  field (columns df) row "checkout_stage".

Definition text_of (df : DataFrame) (row : list cell) : cell :=
  field (columns df) row "feedback_text".

Definition score_of (df : DataFrame) (row : list cell) : cell :=
  field (columns df) row "signal_score".

Definition has_column (df : DataFrame) (key : string) : bool :=
  match get_loc key (columns df) with
  | Some _ => true
  | None => false
  end.

Definition is_float (c : cell) : bool :=
  match c with
  | CFloat _ => true
  | CStr _ => false
  end.

(** A feedback table: the three columns are there and the score column is
    a float column (a missing score is NaN). *)
Definition is_feedback_table (df : DataFrame) : bool :=
  has_column df "checkout_stage" && has_column df "feedback_text"
  && has_column df "signal_score"
  && forallb (fun row => is_float (score_of df row)) (values df).

(** The rows the selector keeps. *)
Definition selected (df : DataFrame) : list (list cell) :=
  filter (fun row => above_threshold (score_of df row)) (values df).

(** Float arithmetic as far as a mean needs it: NaN propagates, and 0/0
    is NaN. *)
Definition fadd (x y : pyfloat) : pyfloat :=
  match x, y with
  | Num a, Num b => Num (a + b)
  | _, _ => NaN
  end.

Definition fdiv_nat (x : pyfloat) (n : nat) : pyfloat :=
  match x, n with
  | Num a, S _ => Num (a / Qnat n)
  | _, _ => NaN
  end.

(** The arithmetic mean of a list of floats: their sum over their number. *)
Definition arithmetic_mean (xs : list pyfloat) : pyfloat :=
  fdiv_nat (fold_right fadd (Num 0) xs) (List.length xs).

Definition float_of (c : cell) : pyfloat :=
  match c with
  | CFloat x => x
  | CStr _ => NaN
  end.

Definition is_num (x : pyfloat) : bool :=
  match x with
  | Num _ => true
  | NaN => false
  end.

(** The score field of every row, in table order. *)
Definition scores (df : DataFrame) : list pyfloat :=
  map (fun row => float_of (score_of df row)) (values df).

(** Equality of floats as numbers. *)
Definition float_eq (x y : pyfloat) : Prop :=
  match x, y with
  | Num a, Num b => a == b
  | NaN, NaN => True
  | _, _ => False
  end.

(** The checkout stage of every row, in table order. *)
Definition stages (df : DataFrame) : Series :=
  map (stage_of df) (values df).

(** [e1] ranks before [e2]: a larger count, or the same count and an earlier
    first appearance in [s]. *)
Definition ranks_before (s : Series) (e1 e2 : cell * nat) : Prop :=
  snd e2 < snd e1 \/
  (snd e1 = snd e2 /\
   first_index cell_eqb (fst e1) s < first_index cell_eqb (fst e2) s).

(** The sum of the numbers of a list, for stating the mean without
    division. *)
Fixpoint Qsum (xs : list pyfloat) : Q :=
  match xs with
  | [] => 0
  | Num q :: t => q + Qsum t
  | NaN :: t => Qsum t
  end.

Definition join_lines (lines : list string) : string :=
  fold_right String.append EmptyString lines.

(** The text a cell contributes to a line: a string as it is, a number as
    [str] prints it, a missing value as [nan]. *)
Definition cell_text (float_repr : Q -> string) (c : cell) : string :=
  match c with
  | CStr s => s
  | CFloat (Num q) => float_repr q
  | CFloat NaN => "nan"
  end.

(** One line of the block, as the specification words it:
    [[stage] text (score: score)]. *)
Definition render_row (float_repr : Q -> string) (df : DataFrame)
    (row : list cell) : string :=
  ("[" ++ cell_text float_repr (stage_of df row) ++ "] "
     ++ cell_text float_repr (text_of df row)
     ++ " (score: " ++ cell_text float_repr (score_of df row) ++ ")" ++ nl)%string.

Definition usage_line : string :=
  "Usage: python analyzer.py <path_to_feedback.csv>".

(** The request content, written out: the instructions up to the place of
    the block, and what follows the block. *)
Definition request_head : string :=
  ("Analyze this customer feedback and identify:" ++ nl
   ++ "                1. Top 3 themes or patterns" ++ nl
   ++ "                2. Urgent technical issues requiring attention" ++ nl
   ++ "                3. UX friction points" ++ nl
   ++ "                " ++ nl
   ++ "                Customer Feedback:" ++ nl
   ++ "                ")%string.

Definition request_tail : string :=
  (nl
   ++ "                " ++ nl
   ++ "                Format your response as:" ++ nl
   ++ "                THEMES: [list themes]" ++ nl
   ++ "                URGENT ISSUES: [list critical problems]" ++ nl
   ++ "                UX FRICTION: [list usability problems]")%string.

Definition request_content (block : string) : string :=
  (request_head ++ block ++ request_tail)%string.

(** The one call of [messages.create] the program makes for a block. *)
Definition messages_create (self : FeedbackAnalyzer) (feedback_text : string)
  : event :=
  MessagesCreate (client_api_key self) "claude-sonnet-4-20250514" 1500 "user"
    (request_content feedback_text).

Definition is_call (ev : event) : bool :=
  match ev with
  | MessagesCreate _ _ _ _ _ => true
  | _ => false
  end.

Definition is_load_or_call (ev : event) : bool :=
  match ev with
  | ReadCsv _ => true
  | MessagesCreate _ _ _ _ _ => true
  | Print _ => false
  end.

(** ** Sample data *)

Fixpoint frac_digits (fuel : nat) (r d : Z) : string :=
  match fuel with
  | O => EmptyString
  | S fuel' =>
      if (r =? 0)%Z then EmptyString
      else (str_Z (10 * r / d) ++ frac_digits fuel' (10 * r mod d) d)%string
  end.

(** A rendering of numbers with a short decimal expansion, such as the
    scores of the samples below, where Python prints the same digits. *)
Definition decimal_repr (q : Q) : string :=
  let n := Z.abs (Qnum q) in
  let d := Zpos (Qden q) in
  let fr := frac_digits 17 (n mod d) d in
  ((if (Qnum q <? 0)%Z then "-" else EmptyString) ++ str_Z (n / d) ++ "."
     ++ (if String.eqb fr EmptyString then "0" else fr))%string.

Definition feedback_columns : list string :=
  ["checkout_stage"; "feedback_text"; "signal_score"].

Definition feedback_row (stage text : string) (score : Q) : list cell :=
  [CStr stage; CStr text; CFloat (Num score)].

Definition sample_table : DataFrame :=
  mkDataFrame feedback_columns
    [feedback_row "cart" "slow load" 8.5;
     feedback_row "shipping" "confusing form" 9.0;
     feedback_row "cart" "fine" 3.0].

Definition sample_world (df : DataFrame) (answer : string) : World :=
  mkWorld (fun _ => Some "sk-test") (fun _ => Ok df) (fun _ _ => Ok [answer]).

(** A table with the columns and no rows. *)
Definition empty_table : DataFrame := mkDataFrame feedback_columns [].

(** A table in which one row has no score. *)
Definition table_with_missing_score : DataFrame :=
  mkDataFrame feedback_columns
    [feedback_row "cart" "slow load" 9.0;
     [CStr "cart"; CStr "no score given"; CFloat NaN]].

(** A table in which no row scores above the threshold. *)
Definition calm_table : DataFrame :=
  mkDataFrame feedback_columns
    [feedback_row "cart" "fine" 3.0; feedback_row "payment" "ok" 7.0].

(** A table read from a file without the score column. *)
Definition table_without_score : DataFrame :=
  mkDataFrame ["checkout_stage"; "feedback_text"]
    [[CStr "cart"; CStr "slow load"]; [CStr "shipping"; CStr "confusing form"]].

(** Four stages, three of them with one row each: the tie is broken by
    first appearance, and the last of the three to appear is left out. *)
Definition tie_table : DataFrame :=
  mkDataFrame feedback_columns
    [feedback_row "shipping" "late" 8.0;
     feedback_row "cart" "slow" 9.0;
     feedback_row "payment" "declined" 7.5;
     feedback_row "review" "unclear" 2.0;
     feedback_row "payment" "timeout" 6.0;
     feedback_row "payment" "again" 9.5].

(** ** Further vocabulary and samples *)

(** The sum of the counts of a dict of counts. *)
Definition counts_sum (items : list (cell * nat)) : nat :=
  list_sum (map snd items).

(** Two entries carry different stage values. *)
Definition distinct_keys (e1 e2 : cell * nat) : Prop :=
  cell_eqb (fst e1) (fst e2) = false.

Definition is_print (ev : event) : bool :=
  match ev with
  | Print _ => true
  | _ => false
  end.

(** A world whose service raises, and one whose service answers with no
    content block. *)
Definition failing_service_world (df : DataFrame) (e : exn) : World :=
  mkWorld (fun _ => Some "sk-test") (fun _ => Ok df) (fun _ _ => Err e).

Definition silent_service_world (df : DataFrame) : World :=
  mkWorld (fun _ => Some "sk-test") (fun _ => Ok df) (fun _ _ => Ok []).

(** Tables without the stage column and without the text column, each with
    a row above the threshold. *)
Definition table_without_stage : DataFrame :=
  mkDataFrame ["feedback_text"; "signal_score"]
    [[CStr "slow load"; CFloat (Num 9.0)]].

Definition table_without_text : DataFrame :=
  mkDataFrame ["checkout_stage"; "signal_score"]
    [[CStr "cart"; CFloat (Num 9.0)]].

(** Six rows with the stages a, b, c, c, d, d: two ties, one of them
    across the third place. *)
Definition two_ties_table : DataFrame :=
  mkDataFrame feedback_columns
    [feedback_row "a" "first" 8.0;
     feedback_row "b" "second" 8.0;
     feedback_row "c" "third" 8.0;
     feedback_row "c" "fourth" 8.0;
     feedback_row "d" "fifth" 8.0;
     feedback_row "d" "sixth" 8.0].

(** The block of a feedback table: the header and one line per selected
    row. *)
Definition feedback_block (float_repr : Q -> string) (df : DataFrame)
  : string :=
  (header_line ++ nl ++ nl
     ++ join_lines (map (render_row float_repr df) (selected df)))%string.

(** * Properties *)

(** ** The pandas layer *)

Lemma rbind_ok {A B : Type} (r : result A) (k : A -> result B) (b : B) :
  rbind r k = Ok b -> exists a, r = Ok a /\ k a = Ok b.
Proof.
  destruct r as [a | e]; simpl; intros H; [now exists a | discriminate].
Qed.

Ltac inv_bind H :=
  let x := fresh "x" in
  let Hx := fresh "Hx" in
  apply rbind_ok in H; destruct H as (x & Hx & H).

Lemma getitem_has_column (df : DataFrame) (key : string) :
  has_column df key = true ->
  getitem df key = Ok (map (fun row => field (columns df) row key) (values df)).
Proof.
  unfold has_column, getitem, field.
  destruct (get_loc key (columns df)); [reflexivity | discriminate].
Qed.

Lemma getitem_no_column (df : DataFrame) (key : string) :
  has_column df key = false -> getitem df key = Err (KeyError key).
Proof.
  unfold has_column, getitem.
  destruct (get_loc key (columns df)); [discriminate | reflexivity].
Qed.

Lemma getitem_ok (df : DataFrame) (key : string) (s : Series) :
  getitem df key = Ok s ->
  has_column df key = true /\
  s = map (fun row => field (columns df) row key) (values df).
Proof.
  intros H. destruct (has_column df key) eqn:E.
  - rewrite (getitem_has_column _ _ E) in H. now inversion H.
  - rewrite (getitem_no_column _ _ E) in H. discriminate.
Qed.

Lemma row_getitem_has_column (df : DataFrame) (row : list cell) (key : string) :
  has_column df key = true ->
  row_getitem (columns df) row key = Ok (field (columns df) row key).
Proof.
  unfold has_column, row_getitem, field.
  destruct (get_loc key (columns df)); [reflexivity | discriminate].
Qed.

Lemma series_gt_float (s : Series) :
  forallb is_float s = true -> series_gt s 7 = Ok (map above_threshold s).
Proof.
  induction s as [| c t IH]; simpl; [reflexivity |].
  intros H. apply andb_true_iff in H. destruct H as [Hc Ht].
  rewrite (IH Ht).
  destruct c as [str | [q | ]]; simpl in *; [discriminate | reflexivity ..].
Qed.

Lemma series_gt_ok (s : Series) (mask : list bool) :
  series_gt s 7 = Ok mask ->
  forallb is_float s = true /\ mask = map above_threshold s.
Proof.
  revert mask. induction s as [| c t IH]; simpl; intros mask H.
  - inversion H. auto.
  - inv_bind H. inv_bind H. inversion H; subst.
    destruct (IH _ Hx0) as [Ht ->].
    destruct c as [str | [q | ]]; simpl in *;
      [discriminate | inversion Hx; subst; auto ..].
Qed.

Lemma mask_select_map {A : Type} (f : A -> bool) (l : list A) :
  mask_select (map f l) l = filter f l.
Proof.
  induction l as [| x t IH]; simpl; [reflexivity |].
  rewrite IH. reflexivity.
Qed.

Lemma filter_length_le {A : Type} (f : A -> bool) (l : list A) :
  List.length (filter f l) <= List.length l.
Proof.
  induction l as [| x t IH]; simpl; [lia |].
  destruct (f x); simpl; lia.
Qed.

Lemma score_column_float (df : DataFrame) :
  forallb is_float (map (fun row => field (columns df) row "signal_score") (values df))
  = forallb (fun row => is_float (score_of df row)) (values df).
Proof.
  unfold score_of. induction (values df) as [| r t IH]; simpl; [reflexivity |].
  now rewrite IH.
Qed.

(** The rows kept by the boolean indexing of the program are [selected]. *)
Lemma high_signal_rows (df : DataFrame) (s : Series) (mask : list bool) :
  getitem df "signal_score" = Ok s -> series_gt s 7 = Ok mask ->
  forallb (fun row => is_float (score_of df row)) (values df) = true /\
  mask_select mask (values df) = selected df.
Proof.
  intros Hs Hm. apply getitem_ok in Hs. destruct Hs as [_ ->].
  apply series_gt_ok in Hm. destruct Hm as [Hf ->].
  rewrite score_column_float in Hf. split; [exact Hf |].
  rewrite map_map. unfold selected, score_of.
  apply (mask_select_map (fun row => above_threshold (field (columns df) row "signal_score"))).
Qed.

(** What [_extract_signals] returns when it returns. *)
Lemma extract_signals_ok (sort_values : sorter) (analysis : string) (df : DataFrame) (r : Signals) :
  _extract_signals sort_values analysis df = Ok r ->
  exists avg,
    mean (map (score_of df) (values df)) = Ok avg /\
    has_column df "signal_score" = true /\
    has_column df "checkout_stage" = true /\
    forallb (fun row => is_float (score_of df row)) (values df) = true /\
    r = mkSignals analysis (List.length (selected df)) (List.length (values df))
          (firstn 3 (value_counts sort_values (stages df))) avg.
Proof.
  unfold _extract_signals. intros H.
  inv_bind H. inv_bind H. inv_bind H. inv_bind H. inv_bind H.
  destruct (high_signal_rows _ Hx Hx0) as [Hf Hsel].
  apply getitem_ok in Hx. destruct Hx as [Hc _].
  apply getitem_ok in Hx1. destruct Hx1 as [Hc1 ->].
  apply getitem_ok in Hx2. destruct Hx2 as [_ ->].
  exists x3. inversion H; subst. unfold len, getitem_mask; simpl.
  rewrite Hsel. repeat split; auto.
Qed.

(** [_extract_signals] returns on every feedback table. *)
Lemma extract_signals_total (sort_values : sorter) (analysis : string) (df : DataFrame) :
  is_feedback_table df = true ->
  exists r, _extract_signals sort_values analysis df = Ok r.
Proof.
  unfold is_feedback_table. intros H.
  repeat (apply andb_true_iff in H; destruct H as [H ?]).
  unfold _extract_signals.
  rewrite (getitem_has_column _ _ H1). simpl.
  rewrite series_gt_float by (now rewrite score_column_float). simpl.
  rewrite (getitem_has_column _ _ H). simpl.
  assert (Hm : exists avg, mean (map (fun row => field (columns df) row "signal_score")
                                     (values df)) = Ok avg).
  { unfold mean. rewrite <- score_column_float in H0.
    set (s := map _ (values df)) in *.
    assert (Hn : exists q, nansum s = Ok q).
    { clearbody s. induction s as [| c t IH]; simpl; [now exists 0%Q |].
      simpl in H0. apply andb_true_iff in H0. destruct H0 as [Hc Ht].
      destruct (IH Ht) as [q Hq]. destruct c as [str | [p | ]]; simpl in *;
        [discriminate | rewrite Hq; simpl; eauto | eauto]. }
    destruct Hn as [q ->]. simpl. destruct (count_notna s); eauto. }
  destruct Hm as [avg ->]. simpl. eauto.
Qed.

(** ** Counts *)

(** C2: on every feedback table the analysis returns a result whose
    [high_priority_count], the number of rows scoring strictly above 7.0,
    is at most [total_analyzed], the number of rows. *)
Theorem high_priority_count_le_total (sort_values : sorter) (analysis : string) (df : DataFrame) :
  is_feedback_table df = true ->
  exists r,
    _extract_signals sort_values analysis df = Ok r /\
    high_priority_count r = List.length (selected df) /\
    total_analyzed r = List.length (values df) /\
    high_priority_count r <= total_analyzed r.
Proof.
  intros Hdf. destruct (extract_signals_total sort_values analysis df Hdf) as [r Hr].
  exists r. split; [exact Hr |].
  apply extract_signals_ok in Hr. destruct Hr as (avg & _ & _ & _ & _ & ->).
  simpl. repeat split. apply filter_length_le.
Qed.

Lemma high_priority_count_le_total_witness :
  is_feedback_table sample_table = true /\
  exists r,
    _extract_signals stable_sort "ok" sample_table = Ok r /\
    high_priority_count r = List.length (selected sample_table) /\
    total_analyzed r = List.length (values sample_table) /\
    high_priority_count r <= total_analyzed r.
Proof.
  split; [reflexivity |].
  apply (high_priority_count_le_total stable_sort "ok" sample_table). reflexivity.
Defined.

(** The bound also holds whenever the function returns, for instance on a
    table without a [feedback_text] column. *)
Lemma extract_signals_count_bound (sort_values : sorter) (analysis : string) (df : DataFrame)
    (r : Signals) :
  _extract_signals sort_values analysis df = Ok r ->
  high_priority_count r <= total_analyzed r.
Proof.
  intros Hr. apply extract_signals_ok in Hr.
  destruct Hr as (avg & _ & _ & _ & _ & ->). simpl. apply filter_length_le.
Qed.

(** C9: on a feedback table with zero rows the analysis returns
    [total_analyzed = 0], [high_priority_count = 0] and an
    [avg_signal_score] that is NaN, not a number. *)
Theorem zero_rows_signals (sort_values : sorter) (analysis : string) (df : DataFrame) :
  is_feedback_table df = true ->
  values df = [] ->
  exists r,
    _extract_signals sort_values analysis df = Ok r /\
    total_analyzed r = 0 /\
    high_priority_count r = 0 /\
    avg_signal_score r = NaN /\
    (forall q, avg_signal_score r <> Num q).
Proof.
  intros Hdf Hv. destruct (extract_signals_total sort_values analysis df Hdf) as [r Hr].
  exists r. split; [exact Hr |].
  apply extract_signals_ok in Hr. destruct Hr as (avg & Hm & _ & _ & _ & ->).
  unfold selected in *. rewrite Hv in *. simpl in *.
  inversion Hm; subst. repeat split. intros q. discriminate.
Qed.

Lemma zero_rows_signals_witness :
  is_feedback_table empty_table = true /\
  values empty_table = [] /\
  exists r,
    _extract_signals stable_sort "ok" empty_table = Ok r /\
    total_analyzed r = 0 /\
    high_priority_count r = 0 /\
    avg_signal_score r = NaN /\
    (forall q, avg_signal_score r <> Num q).
Proof.
  split; [reflexivity |]. split; [reflexivity |].
  apply (zero_rows_signals stable_sort "ok" empty_table); reflexivity.
Defined.

(** ** Credential and command line *)

(** C10: the constructor falls back to the environment value of
    [ANTHROPIC_API_KEY] when the [api_key] argument is [None] and when it is
    the empty string; a non-empty argument is the key, whatever the
    environment holds. *)
Theorem api_key_resolution (w : World) :
  run (__init__ None) w
    = (Ok (mkFeedbackAnalyzer (environ w "ANTHROPIC_API_KEY")), []) /\
  run (__init__ (Some EmptyString)) w
    = (Ok (mkFeedbackAnalyzer (environ w "ANTHROPIC_API_KEY")), []) /\
  (forall (c : ascii) (s : string),
     run (__init__ (Some (String c s))) w
       = (Ok (mkFeedbackAnalyzer (Some (String c s))), [])).
Proof.
  repeat split.
Qed.

(** C8: run without a positional argument, the program prints the usage
    line and exits with status 1; it reads no file and calls no service. *)
Theorem main_without_argument (float_repr : Q -> string) (sort_values : sorter) (w : World)
    (argv : list string) :
  List.length argv < 2 ->
  run (main float_repr sort_values argv) w = (Err (SystemExit 1), [Print usage_line]) /\
  exit_status (fst (run (main float_repr sort_values argv) w)) <> 0%Z /\
  existsb is_load_or_call (snd (run (main float_repr sort_values argv) w)) = false.
Proof.
  intros Hlen. unfold main.
  destruct (Nat.ltb_spec (List.length argv) 2) as [_ | Hge]; [| lia].
  repeat split. simpl. discriminate.
Qed.

Lemma main_without_argument_witness :
  List.length ["analyzer.py"] < 2 /\
  run (main decimal_repr stable_sort ["analyzer.py"]) (sample_world sample_table "ok")
  = (Err (SystemExit 1), [Print usage_line]) /\
  exit_status
    (fst (run (main decimal_repr stable_sort ["analyzer.py"])
            (sample_world sample_table "ok"))) <> 0%Z /\
  existsb is_load_or_call
    (snd (run (main decimal_repr stable_sort ["analyzer.py"])
            (sample_world sample_table "ok"))) = false.
Proof.
  split; [simpl; lia |].
  apply (main_without_argument decimal_repr stable_sort (sample_world sample_table "ok")
           ["analyzer.py"]).
  simpl; lia.
Defined.

(** ** The mean *)

Lemma nansum_present (s : Series) :
  forallb is_float s = true ->
  exists t,
    nansum s = Ok t /\
    fold_right fadd (Num 0) (filter is_num (map float_of s)) = Num t.
Proof.
  induction s as [| c s IH]; simpl; intros H.
  - now exists 0%Q.
  - apply andb_true_iff in H. destruct H as [Hc Hs].
    destruct (IH Hs) as (t & Ht & Hf).
    destruct c as [str | [q | ]]; simpl in *; [discriminate | |].
    + exists (q + t)%Q. rewrite Ht, Hf. auto.
    + exists t. auto.
Qed.

Lemma count_notna_present (s : Series) :
  forallb is_float s = true ->
  count_notna s = List.length (filter is_num (map float_of s)).
Proof.
  unfold count_notna. induction s as [| c s IH]; simpl; intros H.
  - reflexivity.
  - apply andb_true_iff in H. destruct H as [Hc Hs].
    destruct c as [str | [q | ]]; simpl in *;
      [discriminate | now rewrite (IH Hs) | now apply IH].
Qed.

(** pandas' [mean] is the arithmetic mean of the entries that are numbers. *)
Lemma mean_present (s : Series) :
  forallb is_float s = true ->
  mean s = Ok (arithmetic_mean (filter is_num (map float_of s))).
Proof.
  intros H. unfold mean, arithmetic_mean.
  destruct (nansum_present s H) as (t & -> & ->).
  rewrite <- (count_notna_present s H). simpl.
  destruct (count_notna s); reflexivity.
Qed.

Lemma filter_all {A : Type} (f : A -> bool) (l : list A) :
  forallb f l = true -> filter f l = l.
Proof.
  induction l as [| x t IH]; simpl; intros H; [reflexivity |].
  apply andb_true_iff in H. destruct H as [-> Ht]. now rewrite IH.
Qed.

Lemma fold_fadd_present (xs : list pyfloat) :
  fold_right fadd (Num 0) (filter is_num xs) = Num (Qsum xs).
Proof.
  induction xs as [| [q | ] t IH]; simpl; [reflexivity | | exact IH].
  now rewrite IH.
Qed.

Lemma Qnat_pos (n : nat) : (0 < Qnat (S n))%Q.
Proof.
  unfold Qnat, Qlt. simpl. lia.
Qed.

(** C1 (amended): on every feedback table the analysis returns, and
    [avg_signal_score] is the arithmetic mean of the scores that are
    present, rows at or below the 7.0 threshold included: the present
    scores sum to [avg_signal_score] times their number.  When some score
    is present the result is a number; when every row has a score it is the
    arithmetic mean of the score field of all rows. *)
Theorem avg_signal_score_mean (sort_values : sorter) (analysis : string) (df : DataFrame) :
  is_feedback_table df = true ->
  exists r,
    _extract_signals sort_values analysis df = Ok r /\
    avg_signal_score r = arithmetic_mean (filter is_num (scores df)) /\
    (forall n, List.length (filter is_num (scores df)) = S n ->
       exists q, avg_signal_score r = Num q /\
                 (q * Qnat (S n) == Qsum (scores df))%Q) /\
    (forallb is_num (scores df) = true ->
       avg_signal_score r = arithmetic_mean (scores df)).
Proof.
  intros Hdf. destruct (extract_signals_total sort_values analysis df Hdf) as [r Hr].
  exists r. split; [exact Hr |].
  apply extract_signals_ok in Hr. destruct Hr as (avg & Hm & _ & _ & Hf & ->).
  simpl. rewrite mean_present in Hm.
  2:{ rewrite <- Hf. clear. induction (values df) as [| x t IH]; simpl;
      [reflexivity | now rewrite IH]. }
  rewrite map_map in Hm. fold (scores df) in Hm. inversion Hm as [Havg].
  split; [reflexivity |]. split.
  - intros n Hn. unfold arithmetic_mean.
    rewrite fold_fadd_present, Hn. simpl.
    exists (Qsum (scores df) / Qnat (S n))%Q. split; [reflexivity |].
    rewrite Qmult_comm. apply Qmult_div_r.
    intros Hz. pose proof (Qnat_pos n) as Hp. rewrite Hz in Hp.
    now apply Qlt_irrefl in Hp.
  - intros Hall. now rewrite (filter_all _ _ Hall).
Qed.

Lemma avg_signal_score_mean_witness :
  is_feedback_table sample_table = true /\
  exists r,
    _extract_signals stable_sort "ok" sample_table = Ok r /\
    avg_signal_score r = arithmetic_mean (scores sample_table).
Proof.
  split; [reflexivity |].
  destruct (avg_signal_score_mean stable_sort "ok" sample_table eq_refl)
    as (r & Hr & _ & _ & Hall).
  exists r. split; [exact Hr | apply Hall; reflexivity].
Defined.

(** C1 as stated fails on a table with a missing score: the analysis
    averages the one score that is present, the mean of the score field of
    all rows is NaN. *)
Lemma avg_signal_score_skips_missing :
  is_feedback_table table_with_missing_score = true /\
  exists r,
    _extract_signals stable_sort "ok" table_with_missing_score = Ok r /\
    float_eq (avg_signal_score r) (Num 9) /\
    arithmetic_mean (scores table_with_missing_score) = NaN /\
    ~ float_eq (avg_signal_score r)
        (arithmetic_mean (scores table_with_missing_score)).
Proof.
  split; [reflexivity |].
  eexists. split; [reflexivity |]. simpl.
  split; [reflexivity |]. split; [reflexivity |]. intros H; exact H.
Qed.

(** The statistics are not those of the selected rows: on the sample the
    mean over the rows above the threshold would be 8.75. *)
Example avg_not_over_selected :
  exists r,
    _extract_signals stable_sort "ok" sample_table = Ok r /\
    float_eq (avg_signal_score r) (Num (41 # 6)) /\
    float_eq
      (arithmetic_mean
         (map (fun row => float_of (score_of sample_table row))
              (selected sample_table)))
      (Num 8.75).
Proof.
  eexists. split; [reflexivity |]. split; reflexivity.
Qed.

(** ** The formatted block *)

Lemma append_assoc (a b c : string) :
  ((a ++ b) ++ c = a ++ (b ++ c))%string.
Proof.
  induction a as [| ch a IH]; simpl; [reflexivity | now rewrite IH].
Qed.

Lemma append_empty_r (a : string) : (a ++ EmptyString)%string = a.
Proof.
  induction a as [| ch a IH]; simpl; [reflexivity | now rewrite IH].
Qed.

Lemma append_row_render (float_repr : Q -> string) (df : DataFrame)
    (row : list cell) (formatted : string) :
  has_column df "checkout_stage" = true ->
  has_column df "feedback_text" = true ->
  has_column df "signal_score" = true ->
  append_row float_repr (columns df) formatted row
  = Ok (formatted ++ render_row float_repr df row)%string.
Proof.
  intros Hs Ht Hc. unfold append_row.
  rewrite (row_getitem_has_column _ row _ Hs),
          (row_getitem_has_column _ row _ Ht),
          (row_getitem_has_column _ row _ Hc).
  reflexivity.
Qed.

Lemma for_rows_render (float_repr : Q -> string) (df : DataFrame)
    (rows : list (list cell)) (formatted : string) :
  has_column df "checkout_stage" = true ->
  has_column df "feedback_text" = true ->
  has_column df "signal_score" = true ->
  for_rows float_repr (columns df) rows formatted
  = Ok (formatted ++ join_lines (map (render_row float_repr df) rows))%string.
Proof.
  intros Hs Ht Hc. revert formatted.
  induction rows as [| row rest IH]; intros formatted;
    cbn [for_rows map join_lines fold_right].
  - now rewrite append_empty_r.
  - rewrite (append_row_render float_repr df row formatted Hs Ht Hc).
    cbn [rbind]. rewrite IH. now rewrite append_assoc.
Qed.

Lemma above_threshold_spec (c : cell) :
  above_threshold c = true <-> exists q, c = CFloat (Num q) /\ (7 < q)%Q.
Proof.
  destruct c as [s | [q | ]]; simpl.
  - split; [discriminate | intros (q & H & _); discriminate].
  - unfold Qltb. rewrite negb_true_iff. split.
    + intros H. exists q. split; [reflexivity |].
      apply Qnot_le_lt. intros Hle. apply Qle_bool_iff in Hle. congruence.
    + intros (p & Hp & Hlt). inversion Hp; subst p.
      destruct (Qle_bool q 7) eqn:E; [| reflexivity].
      apply Qle_bool_iff in E. now apply Qlt_not_le in Hlt.
  - split; [discriminate | intros (q & H & _); discriminate].
Qed.

Lemma is_feedback_table_columns (df : DataFrame) :
  is_feedback_table df = true ->
  has_column df "checkout_stage" = true /\
  has_column df "feedback_text" = true /\
  has_column df "signal_score" = true /\
  forallb (fun row => is_float (score_of df row)) (values df) = true.
Proof.
  unfold is_feedback_table. intros H.
  repeat (apply andb_true_iff in H; destruct H as [H ?]). auto.
Qed.

Lemma prepare_feedback_selected (float_repr : Q -> string) (df : DataFrame) :
  is_feedback_table df = true ->
  _prepare_feedback float_repr df
  = Ok (header_line ++ nl ++ nl
          ++ join_lines (map (render_row float_repr df) (selected df)))%string.
Proof.
  intros Hdf. destruct (is_feedback_table_columns df Hdf) as (Hs & Ht & Hc & Hf).
  unfold _prepare_feedback.
  pose proof (getitem_has_column df "signal_score" Hc) as Hg.
  rewrite Hg. cbn [rbind].
  pose proof (series_gt_float (map (fun row => field (columns df) row "signal_score")
                                   (values df))) as Hm.
  rewrite score_column_float in Hm. specialize (Hm Hf).
  rewrite Hm. cbn [rbind].
  destruct (high_signal_rows df Hg Hm) as [_ Hsel].
  unfold iterrows, getitem_mask. cbn [columns values].
  rewrite Hsel.
  rewrite (for_rows_render float_repr df (selected df) _ Hs Ht Hc).
  now rewrite !append_assoc.
Qed.

(** C3: on every feedback table the formatted block is the header followed
    by one line per selected row; the selected rows are the rows of the
    table whose score is a number strictly greater than 7.0, kept in table
    order; and the line of a row with stage [stage], text [text] and score
    [q] is [[stage] text (score: q)] followed by a newline, with the stage
    and the text written as they are and the score as [str] prints it, not
    rounded. *)
Theorem prepare_feedback_block (float_repr : Q -> string) (df : DataFrame) :
  is_feedback_table df = true ->
  _prepare_feedback float_repr df
  = Ok (header_line ++ nl ++ nl
          ++ join_lines (map (render_row float_repr df) (selected df)))%string /\
  selected df
  = filter (fun row => above_threshold (score_of df row)) (values df) /\
  (forall row,
     In row (selected df) <->
     In row (values df) /\
     exists q, score_of df row = CFloat (Num q) /\ (7 < q)%Q) /\
  (forall row stage text q,
     stage_of df row = CStr stage ->
     text_of df row = CStr text ->
     score_of df row = CFloat (Num q) ->
     render_row float_repr df row
     = ("[" ++ stage ++ "] " ++ text
          ++ " (score: " ++ float_repr q ++ ")" ++ nl)%string).
Proof.
  intros Hdf. split; [now apply prepare_feedback_selected |].
  split; [reflexivity |]. split.
  - intros row. unfold selected. rewrite filter_In, above_threshold_spec.
    reflexivity.
  - intros row stage text q Hs Ht Hq. unfold render_row.
    now rewrite Hs, Ht, Hq.
Qed.

Lemma prepare_feedback_block_witness :
  is_feedback_table sample_table = true /\
  _prepare_feedback decimal_repr sample_table
  = Ok (header_line ++ nl ++ nl
          ++ "[cart] slow load (score: 8.5)" ++ nl
          ++ "[shipping] confusing form (score: 9.0)" ++ nl)%string /\
  render_row decimal_repr sample_table (feedback_row "cart" "slow load" 8.5)
  = ("[" ++ "cart" ++ "] " ++ "slow load"
       ++ " (score: " ++ decimal_repr 8.5 ++ ")" ++ nl)%string.
Proof.
  split; [reflexivity |].
  destruct (prepare_feedback_block decimal_repr sample_table eq_refl)
    as (Hblock & _ & _ & Hline).
  split.
  - rewrite Hblock. reflexivity.
  - apply (Hline (feedback_row "cart" "slow load" 8.5) "cart" "slow load" 8.5%Q);
      reflexivity.
Defined.

(** ** The pipeline *)

(** The f-string of the program is the request content written out. *)
Lemma prompt_request_content (text : string) :
  prompt text = request_content text.
Proof.
  reflexivity.
Qed.

(** [analyze_batch], step by step. *)
Lemma analyze_batch_run (float_repr : Q -> string) (sort_values : sorter) (self : FeedbackAnalyzer)
    (path : string) (w : World) :
  run (analyze_batch float_repr sort_values self path) w
  = match files w path with
    | Err e => (Err e, [ReadCsv path])
    | Ok df =>
        match _prepare_feedback float_repr df with
        | Err e => (Err e, [ReadCsv path])
        | Ok text =>
            match service w (client_api_key self) (prompt text) with
            | Err e => (Err e, [ReadCsv path; messages_create self text])
            | Ok message =>
                match first_text message with
                | Err e => (Err e, [ReadCsv path; messages_create self text])
                | Ok analysis =>
                    (_extract_signals sort_values analysis df,
                     [ReadCsv path; messages_create self text])
                end
            end
        end
    end.
Proof.
  cbv [run analyze_batch bind read_csv _call_claude_api emit ask lift ret
         messages_create app].
  destruct (files w path) as [df | e]; [| reflexivity].
  destruct (_prepare_feedback float_repr df) as [text | e]; [| reflexivity].
  destruct (service w (client_api_key self) (prompt text)) as [message | e];
    [| reflexivity].
  destruct (first_text message) as [analysis | e]; [| reflexivity].
  destruct (_extract_signals sort_values analysis df); reflexivity.
Qed.

Lemma read_csv_run (path : string) (w : World) :
  run (read_csv path) w = (files w path, [ReadCsv path]).
Proof.
  cbv [run read_csv bind emit ask lift app].
  destruct (files w path); reflexivity.
Qed.



(** ** A table without the score column *)

Lemma prepare_feedback_no_score (float_repr : Q -> string) (df : DataFrame) :
  has_column df "signal_score" = false ->
  _prepare_feedback float_repr df = Err (KeyError "signal_score").
Proof.
  intros H. unfold _prepare_feedback.
  now rewrite (getitem_no_column df "signal_score" H).
Qed.

(** C7 (amended): when the file parses to a table without the column
    [signal_score], the load step returns that table; the run then fails in
    [_prepare_feedback] with a [KeyError] for the column, and the trace
    holds the read only: no request is sent to the summarizer. *)
Theorem missing_score_column_fails_before_call (float_repr : Q -> string) (sort_values : sorter)
    (w : World) (self : FeedbackAnalyzer) (path : string) (df : DataFrame) :
  files w path = Ok df ->
  has_column df "signal_score" = false ->
  run (read_csv path) w = (Ok df, [ReadCsv path]) /\
  run (analyze_batch float_repr sort_values self path) w
  = (Err (KeyError "signal_score"), [ReadCsv path]) /\
  existsb is_call (snd (run (analyze_batch float_repr sort_values self path) w)) = false.
Proof.
  intros Hfile Hcol.
  rewrite read_csv_run, analyze_batch_run, Hfile,
    (prepare_feedback_no_score float_repr df Hcol).
  repeat split.
Qed.

Lemma missing_score_column_fails_before_call_witness :
  files (sample_world table_without_score "ok") "feedback.csv"
  = Ok table_without_score /\
  has_column table_without_score "signal_score" = false /\
  run (analyze_batch decimal_repr stable_sort (mkFeedbackAnalyzer None) "feedback.csv")
    (sample_world table_without_score "ok")
  = (Err (KeyError "signal_score"), [ReadCsv "feedback.csv"]).
Proof.
  split; [reflexivity |]. split; [reflexivity |].
  apply (missing_score_column_fails_before_call decimal_repr stable_sort
           (sample_world table_without_score "ok") (mkFeedbackAnalyzer None)
           "feedback.csv" (df := table_without_score) eq_refl eq_refl).
Defined.

(** C7 as stated fails: for a file without the column [signal_score] the
    load step does not fail, it returns the table. *)
Lemma load_succeeds_without_score_column :
  has_column table_without_score "signal_score" = false /\
  fst (run (read_csv "feedback.csv") (sample_world table_without_score "ok"))
  = Ok table_without_score /\
  ~ (exists e,
       fst (run (read_csv "feedback.csv")
              (sample_world table_without_score "ok")) = Err e).
Proof.
  split; [reflexivity |]. split; [reflexivity |].
  intros [e H]. discriminate H.
Qed.

(** ** Strongly sorted lists *)

Unset Implicit Arguments.

Section SortedFacts.
Variable A : Type.

Lemma StronglySorted_impl_In (R1 R2 : A -> A -> Prop) (l : list A) :
  (forall x y, In x l -> In y l -> R1 x y -> R2 x y) ->
  StronglySorted R1 l -> StronglySorted R2 l.
Proof.
  induction l as [| a l IH]; intros Himp Hs; [constructor |].
  apply StronglySorted_inv in Hs. destruct Hs as [Hl Ha].
  constructor.
  - apply IH; [| exact Hl]. intros x y Hx Hy. apply Himp; now right.
  - rewrite Forall_forall in *. intros y Hy.
    apply Himp; [now left | now right | now apply Ha].
Qed.

Lemma StronglySorted_app (R : A -> A -> Prop) (l1 l2 : list A) :
  StronglySorted R l1 -> StronglySorted R l2 ->
  (forall x y, In x l1 -> In y l2 -> R x y) ->
  StronglySorted R (l1 ++ l2).
Proof.
  induction l1 as [| a l1 IH]; simpl; intros H1 H2 Hc; [exact H2 |].
  apply StronglySorted_inv in H1. destruct H1 as [Hl Ha].
  constructor.
  - apply IH; auto.
  - rewrite Forall_forall in *. intros y Hy.
    apply in_app_or in Hy. destruct Hy as [Hy | Hy]; auto.
Qed.

Lemma StronglySorted_app_inv (R : A -> A -> Prop) (l1 l2 : list A) :
  StronglySorted R (l1 ++ l2) ->
  StronglySorted R l1 /\ StronglySorted R l2 /\
  (forall x y, In x l1 -> In y l2 -> R x y).
Proof.
  induction l1 as [| a l1 IH]; simpl; intros H.
  - repeat split; [constructor | exact H | intros x y []].
  - apply StronglySorted_inv in H. destruct H as [Hl Ha].
    destruct (IH Hl) as (H1 & H2 & Hc).
    rewrite Forall_forall in Ha. repeat split; [| exact H2 |].
    + constructor; [exact H1 |].
      rewrite Forall_forall. intros y Hy. apply Ha, in_or_app. now left.
    + intros x y [<- | Hx] Hy; [apply Ha, in_or_app; now right | auto].
Qed.

Lemma StronglySorted_map (B : Type) (f : A -> B) (R : B -> B -> Prop)
    (l : list A) :
  StronglySorted R (map f l) <->
  StronglySorted (fun a b => R (f a) (f b)) l.
Proof.
  induction l as [| a l IH]; simpl; split; intros H;
    try constructor; apply StronglySorted_inv in H; destruct H as [Hl Ha].
  - now apply IH.
  - rewrite Forall_forall in *. intros y Hy. apply Ha. now apply in_map.
  - now apply IH.
  - rewrite Forall_forall in *. intros y Hy.
    apply in_map_iff in Hy. destruct Hy as (x & <- & Hx). now apply Ha.
Qed.
End SortedFacts.

(** ** The counting table *)

Section CountingFacts.
Variable K : Type.
Variable eqb : K -> K -> bool.
Hypothesis eqb_refl : forall a, eqb a a = true.
Hypothesis eqb_sym : forall a b, eqb a b = eqb b a.
Hypothesis eqb_trans :
  forall a b c, eqb a b = true -> eqb b c = true -> eqb a c = true.

Local Abbreviation occ := (occurrences eqb).
Local Abbreviation fidx := (first_index eqb).

Lemma eqb_congr (a b c : K) : eqb a b = true -> eqb a c = eqb b c.
Proof.
  intros H. destruct (eqb b c) eqn:E.
  - now apply eqb_trans with b.
  - destruct (eqb a c) eqn:E2; [| reflexivity].
    rewrite <- E. symmetry. apply eqb_trans with a; [| exact E2].
    now rewrite eqb_sym.
Qed.

Lemma first_index_le (k : K) (l : list K) : fidx k l <= List.length l.
Proof.
  induction l as [| c l IH]; simpl; [lia |]. destruct (eqb k c); lia.
Qed.

Lemma first_index_congr (a b : K) (l : list K) :
  eqb a b = true -> fidx a l = fidx b l.
Proof.
  intros H. induction l as [| c l IH]; simpl; [reflexivity |].
  rewrite (eqb_congr _ _ c H), IH. reflexivity.
Qed.

Lemma occurrences_congr (a b : K) (l : list K) :
  eqb a b = true -> occ a l = occ b l.
Proof.
  intros H. unfold occurrences. induction l as [| c l IH]; simpl;
    [reflexivity |].
  rewrite (eqb_congr _ _ c H). destruct (eqb b c); simpl; now rewrite IH.
Qed.

Lemma first_index_In (k : K) (l : list K) :
  In k l -> fidx k l < List.length l.
Proof.
  induction l as [| c l IH]; simpl; [intros [] |].
  intros [-> | H].
  - rewrite eqb_refl. lia.
  - destruct (eqb k c); [lia |]. apply IH in H. lia.
Qed.

Lemma first_index_found (k : K) (l : list K) :
  fidx k l < List.length l -> exists c, In c l /\ eqb k c = true.
Proof.
  induction l as [| c l IH]; simpl; [lia |].
  destruct (eqb k c) eqn:E; intros H.
  - exists c. auto.
  - destruct IH as (c' & Hc & He); [lia |]. exists c'. auto.
Qed.

Lemma first_index_app_old (k x : K) (l : list K) :
  fidx k l < List.length l -> fidx k (l ++ [x]) = fidx k l.
Proof.
  induction l as [| c l IH]; simpl; [lia |].
  destruct (eqb k c); [reflexivity |]. intros H. rewrite IH; lia.
Qed.

Lemma first_index_app_new (k x : K) (l : list K) :
  fidx k l = List.length l ->
  fidx k (l ++ [x]) = List.length l + (if eqb k x then 0 else 1).
Proof.
  induction l as [| c l IH]; simpl.
  - destruct (eqb k x); reflexivity.
  - destruct (eqb k c); [discriminate |]. intros H. rewrite IH; lia.
Qed.

Lemma occurrences_app (k x : K) (l : list K) :
  occ k (l ++ [x]) = occ k l + (if eqb k x then 1 else 0).
Proof.
  unfold occurrences. rewrite filter_app, length_app. simpl.
  destruct (eqb k x); reflexivity.
Qed.

Lemma occurrences_absent (k : K) (l : list K) :
  fidx k l = List.length l -> occ k l = 0.
Proof.
  unfold occurrences. induction l as [| c l IH]; simpl; [reflexivity |].
  destruct (eqb k c); [discriminate |]. intros H. apply IH. lia.
Qed.

Lemma occurrences_present (k : K) (l : list K) :
  In k l -> 1 <= occ k l.
Proof.
  unfold occurrences. induction l as [| c l IH]; simpl; [intros [] |].
  intros [-> | H].
  - rewrite eqb_refl. simpl. lia.
  - destruct (eqb k c); simpl; [lia | auto].
Qed.

(** The two cases of a table update. *)
Lemma bump_spec (x : K) (tbl : list (K * nat)) :
  (exists t1 k n t2,
     tbl = t1 ++ (k, n) :: t2 /\ eqb x k = true /\
     Forall (fun e => eqb x (fst e) = false) t1 /\
     bump eqb x tbl = t1 ++ (k, S n) :: t2)
  \/ (Forall (fun e => eqb x (fst e) = false) tbl /\
      bump eqb x tbl = tbl ++ [(x, 1)]).
Proof.
  induction tbl as [| [k n] t IH]; simpl.
  - right. auto.
  - destruct (eqb x k) eqn:E.
    + left. exists [], k, n, t. simpl. auto.
    + destruct IH as [(t1 & k' & n' & t2 & -> & Hk & Ht1 & Hb) | [Hall Hb]].
      * left. exists ((k, n) :: t1), k', n', t2. simpl. rewrite Hb.
        repeat split; auto.
      * right. rewrite Hb. split; auto.
Qed.

Lemma counted_bump (l : list K) (x : K) (tbl : list (K * nat)) :
  counted eqb l tbl -> counted eqb (l ++ [x]) (bump eqb x tbl).
Proof.
  intros (Hcnt & Hsort & Hall).
  assert (Hkeys : forall k, In k (map fst tbl) -> fidx k l < List.length l).
  { intros k Hk. apply in_map_iff in Hk. destruct Hk as ([k' n] & <- & Hin).
    apply first_index_In. now apply (Hcnt k' n). }
  assert (Hsort' : StronglySorted (fun k1 k2 => fidx k1 (l ++ [x]) < fidx k2 (l ++ [x]))
                     (map fst tbl)).
  { revert Hsort. apply StronglySorted_impl_In. intros a b Ha Hb Hlt.
    rewrite !first_index_app_old; auto. }
  destruct (bump_spec x tbl)
    as [(t1 & k & n & t2 & -> & Hk & Ht1 & ->) | [Hnone ->]].
  - assert (Hkx : eqb k x = true) by now rewrite eqb_sym.
    assert (Ht2 : forall e, In e t2 -> eqb x (fst e) = false).
    { intros e He. destruct (eqb x (fst e)) eqn:E; [| reflexivity].
      rewrite map_app in Hsort. simpl in Hsort.
      apply StronglySorted_app_inv in Hsort. destruct Hsort as (_ & Hs & _).
      apply StronglySorted_inv in Hs. destruct Hs as [_ Hs].
      rewrite Forall_forall in Hs.
      specialize (Hs (fst e) (in_map fst _ _ He)).
      rewrite (first_index_congr k (fst e) l) in Hs; [lia |].
      now apply eqb_trans with x. }
    repeat split.
    + apply in_or_app. apply in_app_or in H. destruct H as [H | [H | H]].
      * left. apply (Hcnt k0 n0). apply in_or_app. now left.
      * inversion H; subst. left. apply (Hcnt k0 n). apply in_or_app.
        right. now left.
      * left. apply (Hcnt k0 n0). apply in_or_app. right. now right.
    + rewrite occurrences_app. apply in_app_or in H.
      rewrite Forall_forall in Ht1. destruct H as [H | [H | H]].
      * specialize (Ht1 _ H). simpl in Ht1. rewrite eqb_sym, Ht1.
        rewrite Nat.add_0_r. apply (Hcnt k0 n0). apply in_or_app. now left.
      * inversion H; subst. rewrite Hkx.
        assert (n = occ k0 l) by (apply (Hcnt k0 n); apply in_or_app; right; now left).
        lia.
      * specialize (Ht2 _ H). simpl in Ht2. rewrite eqb_sym, Ht2.
        rewrite Nat.add_0_r. apply (Hcnt k0 n0). apply in_or_app.
        right. now right.
    + rewrite map_app in *. exact Hsort'.
    + intros k0 Hk0. apply in_app_or in Hk0. destruct Hk0 as [Hk0 | [<- | []]].
      * destruct (Hall k0 Hk0) as (k' & n' & Hin & He).
        apply in_app_or in Hin. destruct Hin as [Hin | [Hin | Hin]].
        -- exists k', n'. split; [apply in_or_app; now left | exact He].
        -- inversion Hin; subst. exists k', (S n').
           split; [apply in_or_app; right; now left | exact He].
        -- exists k', n'. split; [apply in_or_app; right; now right | exact He].
      * exists k, (S n). split; [apply in_or_app; right; now left | exact Hk].
  - rewrite Forall_forall in Hnone.
    assert (Hx : fidx x l = List.length l).
    { pose proof (first_index_le x l) as Hle.
      destruct (Nat.eq_dec (fidx x l) (List.length l)) as [E | E]; [exact E |].
      destruct (first_index_found x l) as (c & Hc & He); [lia |].
      destruct (Hall c Hc) as (k' & n' & Hin & He').
      specialize (Hnone _ Hin). simpl in Hnone.
      rewrite (eqb_trans _ _ _ He He') in Hnone. discriminate. }
    repeat split.
    + apply in_or_app. apply in_app_or in H. destruct H as [H | [H | []]].
      * left. now apply (Hcnt k n).
      * inversion H; subst. right. now left.
    + rewrite occurrences_app. apply in_app_or in H.
      destruct H as [H | [H | []]].
      * specialize (Hnone _ H). simpl in Hnone. rewrite eqb_sym, Hnone.
        rewrite Nat.add_0_r. now apply (Hcnt k n).
      * inversion H; subst. rewrite eqb_refl, (occurrences_absent _ _ Hx).
        reflexivity.
    + rewrite map_app. simpl. apply StronglySorted_app; [exact Hsort' | |].
      * constructor; constructor.
      * intros a b Ha [<- | []].
        rewrite (first_index_app_old _ _ _ (Hkeys a Ha)).
        rewrite (first_index_app_new _ _ _ Hx), eqb_refl.
        specialize (Hkeys a Ha). lia.
    + intros k0 Hk0. apply in_app_or in Hk0. destruct Hk0 as [Hk0 | [<- | []]].
      * destruct (Hall k0 Hk0) as (k' & n' & Hin & He).
        exists k', n'. split; [apply in_or_app; now left | exact He].
      * exists x, 1. split; [apply in_or_app; right; now left | apply eqb_refl].
Qed.

Lemma count_table_counted (l : list K) : counted eqb l (count_table eqb l).
Proof.
  unfold count_table. induction l as [| x l IH] using rev_ind.
  - split; [intros k n [] | split; [constructor | intros k []]].
  - rewrite fold_left_app. simpl. now apply counted_bump.
Qed.
End CountingFacts.

(** ** The stable sort by descending count *)

Section SortFacts.
Variable K : Type.
Variable earlier : K * nat -> K * nat -> Prop.

Local Abbreviation ranked := (ranked earlier).

Lemma insert_desc_perm (x : K * nat) (l : list (K * nat)) :
  Permutation (insert_desc x l) (x :: l).
Proof.
  induction l as [| y t IH]; simpl; [reflexivity |].
  destruct (snd y <=? snd x); [reflexivity |].
  rewrite IH. apply perm_swap.
Qed.

Lemma sort_desc_perm (l : list (K * nat)) : Permutation (sort_desc l) l.
Proof.
  induction l as [| x t IH]; simpl; [reflexivity |].
  rewrite insert_desc_perm. now constructor.
Qed.

Lemma ranked_count_le (y : K * nat) (l : list (K * nat)) :
  Forall (ranked y) l -> Forall (fun z => snd z <= snd y) l.
Proof.
  apply Forall_impl. intros z [H | [H _]]; lia.
Qed.

Lemma insert_desc_sorted (x : K * nat) (l : list (K * nat)) :
  StronglySorted ranked l -> Forall (earlier x) l ->
  StronglySorted ranked (insert_desc x l).
Proof.
  induction l as [| y t IH]; simpl; intros Hs He.
  - repeat constructor.
  - pose proof (StronglySorted_inv Hs) as [Ht Hy].
    destruct (Nat.leb_spec (snd y) (snd x)) as [Hle | Hgt].
    + constructor; [exact Hs |].
      apply ranked_count_le in Hy.
      rewrite Forall_forall in *. intros z Hz.
      assert (Hzx : snd z <= snd x).
      { destruct Hz as [<- | Hz]; [exact Hle |]. specialize (Hy z Hz). lia. }
      destruct (Nat.eq_dec (snd z) (snd x)) as [Heq | Hne].
      * right. split; [now symmetry | now apply He].
      * left. lia.
    + inversion He as [| ? ? Hxy Hxt]; subst.
      constructor; [now apply IH |].
      rewrite Forall_forall in *. intros z Hz.
      apply (Permutation_in _ (insert_desc_perm x t)) in Hz.
      destruct Hz as [<- | Hz]; [left; exact Hgt | now apply Hy].
Qed.

Lemma sort_desc_sorted (l : list (K * nat)) :
  StronglySorted earlier l -> StronglySorted ranked (sort_desc l).
Proof.
  induction l as [| x t IH]; simpl; intros Hs; [constructor |].
  apply StronglySorted_inv in Hs. destruct Hs as [Ht Hx].
  apply insert_desc_sorted; [now apply IH |].
  rewrite Forall_forall in *. intros z Hz. apply Hx.
  now apply (Permutation_in _ (sort_desc_perm t)).
Qed.
End SortFacts.

(** ** [value_counts] on cells *)

Lemma cell_eqb_refl (a : cell) : cell_eqb a a = true.
Proof.
  destruct a as [s | [q | ]]; simpl;
    [apply String.eqb_refl | apply Qeq_bool_refl | reflexivity].
Qed.

Lemma cell_eqb_sym (a b : cell) : cell_eqb a b = cell_eqb b a.
Proof.
  destruct a as [s | [p | ]], b as [t | [q | ]]; simpl; try reflexivity;
    [apply String.eqb_sym | apply Qeq_bool_comm].
Qed.

Lemma cell_eqb_trans (a b c : cell) :
  cell_eqb a b = true -> cell_eqb b c = true -> cell_eqb a c = true.
Proof.
  destruct a as [s | [p | ]], b as [t | [q | ]], c as [u | [r | ]]; simpl;
    try discriminate; try reflexivity.
  - rewrite !String.eqb_eq. congruence.
  - apply Qeq_bool_trans.
Qed.

Lemma cell_eqb_notna (k c : cell) :
  cell_eqb k c = true -> notna k = notna c.
Proof.
  destruct k as [s | [p | ]], c as [t | [q | ]]; simpl;
    try discriminate; reflexivity.
Qed.

Lemma occurrences_filter_notna (k : cell) (s : Series) :
  notna k = true ->
  occurrences cell_eqb k (filter notna s) = occurrences cell_eqb k s.
Proof.
  intros Hk. unfold occurrences. induction s as [| c t IH]; simpl;
    [reflexivity |].
  destruct (cell_eqb k c) eqn:E.
  - rewrite <- (cell_eqb_notna _ _ E), Hk. simpl. rewrite E. simpl.
    now rewrite IH.
  - destruct (notna c); simpl; [rewrite E |]; exact IH.
Qed.

(** Dropping NaN does not change which of two values appears first. *)
Lemma first_index_filter_notna (k1 k2 : cell) (s : Series) :
  notna k1 = true -> notna k2 = true ->
  first_index cell_eqb k1 (filter notna s)
    < first_index cell_eqb k2 (filter notna s) ->
  first_index cell_eqb k1 s < first_index cell_eqb k2 s.
Proof.
  intros H1 H2. induction s as [| c t IH]; simpl; [lia |].
  destruct (notna c) eqn:Hc; simpl.
  - destruct (cell_eqb k1 c), (cell_eqb k2 c); lia.
  - destruct (cell_eqb k1 c) eqn:E1.
    { apply cell_eqb_notna in E1. congruence. }
    destruct (cell_eqb k2 c) eqn:E2.
    { apply cell_eqb_notna in E2. congruence. }
    intros H. apply IH in H. lia.
Qed.

Lemma ranks_before_ranked (s : Series) (e1 e2 : cell * nat) :
  ranks_before s e1 e2 <->
  ranked (fun a b => first_index cell_eqb (fst a) s
                     < first_index cell_eqb (fst b) s) e1 e2.
Proof.
  reflexivity.
Qed.

(** With the stable sort, equal counts stay in order of first appearance. *)
Lemma value_counts_stable_spec (s : Series) :
  (forall k n, In (k, n) (value_counts stable_sort s) ->
     notna k = true /\ In k s /\ n = occurrences cell_eqb k s /\ 1 <= n) /\
  StronglySorted (ranks_before s) (value_counts stable_sort s) /\
  (forall k, In k s -> notna k = true ->
     exists k' n, In (k', n) (value_counts stable_sort s) /\ cell_eqb k k' = true).
Proof.
  unfold value_counts, stable_sort.
  destruct (count_table_counted cell cell_eqb cell_eqb_refl cell_eqb_sym
              cell_eqb_trans (filter notna s)) as (Hcnt & Hsort & Hall).
  set (tbl := count_table cell_eqb (filter notna s)) in *.
  assert (Hkey : forall k n, In (k, n) tbl -> notna k = true /\ In k s).
  { intros k n H. apply Hcnt in H. destruct H as [H _].
    apply filter_In in H. tauto. }
  split; [| split].
  - intros k n H. apply (Permutation_in _ (sort_desc_perm _ tbl)) in H.
    destruct (Hkey k n H) as [Hk Hin]. destruct (Hcnt k n H) as [_ Hn].
    rewrite occurrences_filter_notna in Hn by exact Hk.
    repeat split; auto. rewrite Hn.
    now apply occurrences_present; [apply cell_eqb_refl |].
  - apply sort_desc_sorted.
    apply (proj1 (StronglySorted_map (cell * nat) cell fst _ tbl)) in Hsort.
    revert Hsort. apply StronglySorted_impl_In.
    intros [k1 n1] [k2 n2] H1 H2. simpl.
    apply first_index_filter_notna; [apply (Hkey k1 n1 H1) | apply (Hkey k2 n2 H2)].
  - intros k Hin Hk. destruct (Hall k) as (k' & n & H & He).
    { apply filter_In. auto. }
    exists k', n. split; [| exact He].
    apply (Permutation_in _ (Permutation_sym (sort_desc_perm _ tbl))). exact H.
Qed.

(** A relation that holds both ways round is kept by reordering. *)
Lemma StronglySorted_perm_sym {A : Type} (R : A -> A -> Prop) (l l' : list A) :
  (forall x y, R x y -> R y x) ->
  Permutation l l' -> StronglySorted R l -> StronglySorted R l'.
Proof.
  intros Hsym Hp. induction Hp as [| x l l' Hp IH | x y l | l l' l'' Hp1 IH1 Hp2 IH2];
    intros Hs.
  - constructor.
  - apply StronglySorted_inv in Hs. destruct Hs as [Hl Hx].
    constructor; [now apply IH |].
    rewrite Forall_forall in *. intros z Hz. apply Hx.
    now apply (Permutation_in _ (Permutation_sym Hp)).
  - apply StronglySorted_inv in Hs. destruct Hs as [Hs Hy].
    apply StronglySorted_inv in Hs. destruct Hs as [Hl Hx].
    inversion Hy as [| ? ? Hyx Hyl]; subst.
    constructor; [now constructor |]. constructor; [now apply Hsym | exact Hx].
  - auto.
Qed.

Lemma distinct_keys_sym (e1 e2 : cell * nat) :
  distinct_keys e1 e2 -> distinct_keys e2 e1.
Proof.
  unfold distinct_keys. now rewrite cell_eqb_sym.
Qed.

(** The table [value_counts] hands to the sort: the stage values with
    their counts, each value once. *)
Lemma count_table_cells (s : Series) :
  (forall k n, In (k, n) (count_table cell_eqb (filter notna s)) ->
     notna k = true /\ In k s /\ n = occurrences cell_eqb k s /\ 1 <= n) /\
  StronglySorted distinct_keys (count_table cell_eqb (filter notna s)) /\
  (forall k, In k s -> notna k = true ->
     exists k' n, In (k', n) (count_table cell_eqb (filter notna s)) /\
                  cell_eqb k k' = true).
Proof.
  destruct (count_table_counted cell cell_eqb cell_eqb_refl cell_eqb_sym
              cell_eqb_trans (filter notna s)) as (Hcnt & Hsort & Hall).
  set (tbl := count_table cell_eqb (filter notna s)) in *.
  split; [| split].
  - intros k n H. destruct (Hcnt k n H) as [Hin Hn].
    apply filter_In in Hin. destruct Hin as [Hin Hk].
    rewrite occurrences_filter_notna in Hn by exact Hk.
    repeat split; auto. rewrite Hn.
    now apply occurrences_present; [apply cell_eqb_refl |].
  - apply (proj1 (StronglySorted_map (cell * nat) cell fst _ tbl)) in Hsort.
    revert Hsort. apply StronglySorted_impl_In.
    intros [k1 n1] [k2 n2] _ _. unfold distinct_keys. cbn [fst].
    intros Hlt. destruct (cell_eqb k1 k2) eqn:E; [| reflexivity].
    rewrite (first_index_congr cell cell_eqb cell_eqb_sym cell_eqb_trans
               k1 k2 _ E) in Hlt. lia.
  - intros k Hin Hk. apply Hall. apply filter_In. auto.
Qed.

(** The result of [value_counts] under any sort that fits: the stage values
    with their counts, each value once, larger counts first. *)
Lemma value_counts_sorted (sort_values : sorter) (s : Series) :
  sorts_descending sort_values ->
  (forall k n, In (k, n) (value_counts sort_values s) ->
     notna k = true /\ In k s /\ n = occurrences cell_eqb k s /\ 1 <= n) /\
  StronglySorted count_ge (value_counts sort_values s) /\
  StronglySorted distinct_keys (value_counts sort_values s) /\
  (forall k, In k s -> notna k = true ->
     exists k' n, In (k', n) (value_counts sort_values s) /\
                  cell_eqb k k' = true).
Proof.
  intros Hsv. unfold value_counts.
  destruct (count_table_cells s) as (Hcnt & Hdist & Hall).
  destruct (Hsv (count_table cell_eqb (filter notna s))) as [Hperm Hsort].
  split; [| split; [exact Hsort | split]].
  - intros k n H. apply Hcnt. now apply (Permutation_in _ Hperm).
  - apply (StronglySorted_perm_sym distinct_keys _ _ distinct_keys_sym
             (Permutation_sym Hperm) Hdist).
  - intros k Hin Hk. destruct (Hall k Hin Hk) as (k' & n & H & He).
    exists k', n. split; [| exact He].
    now apply (Permutation_in _ (Permutation_sym Hperm)).
Qed.

Lemma sort_desc_count_ge (l : list (cell * nat)) :
  StronglySorted count_ge (sort_desc l).
Proof.
  assert (H : StronglySorted (fun _ _ : cell * nat => True) l).
  { induction l as [| x t IH]; constructor; [exact IH |].
    rewrite Forall_forall. auto. }
  apply (sort_desc_sorted cell (fun _ _ => True)) in H.
  revert H. apply StronglySorted_impl_In.
  intros e1 e2 _ _ [Hlt | [Heq _]]; unfold count_ge; lia.
Qed.

Lemma stable_sort_sorts_descending : sorts_descending stable_sort.
Proof.
  intros l. unfold stable_sort. split;
    [apply sort_desc_perm | apply sort_desc_count_ge].
Qed.

Lemma sort_ties_reversed_sorts_descending : sorts_descending sort_ties_reversed.
Proof.
  intros l. unfold sort_ties_reversed. split; [| apply sort_desc_count_ge].
  rewrite sort_desc_perm. apply Permutation_sym, Permutation_rev.
Qed.

(** ** The top stages *)

Lemma in_firstn {A : Type} (n : nat) (l : list A) (x : A) :
  In x (firstn n l) -> In x l.
Proof.
  intros H. rewrite <- (firstn_skipn n l). apply in_or_app. now left.
Qed.

Lemma skipn_nonempty_firstn_full {A : Type} (n : nat) (l : list A) (x : A) :
  In x (skipn n l) -> List.length (firstn n l) = n.
Proof.
  intros H. rewrite length_firstn.
  assert (Hs : List.length (skipn n l) <> 0) by (destruct (skipn n l); [easy | simpl; lia]).
  rewrite length_skipn in Hs. lia.
Qed.

(** C5 (amended): on every feedback table the analysis returns, and
    [top_stages] holds at most three entries, each a stage value of the
    table with the number of rows that carry it, no value twice.  The
    entries run from larger to smaller counts, and a stage value of the
    table that is not among them has a count no larger than any of the
    three.  The order of equally frequent stages, and which of them are
    kept when a tie reaches across the third place, is whatever the sort
    leaves: this holds for every sort that orders by descending count. *)
Theorem top_stages_by_count (sort_values : sorter) (analysis : string)
    (df : DataFrame) :
  sorts_descending sort_values ->
  is_feedback_table df = true ->
  exists r,
    _extract_signals sort_values analysis df = Ok r /\
    List.length (top_stages r) <= 3 /\
    (forall k n, In (k, n) (top_stages r) ->
       notna k = true /\ In k (stages df) /\
       n = occurrences cell_eqb k (stages df) /\ 1 <= n) /\
    StronglySorted count_ge (top_stages r) /\
    StronglySorted distinct_keys (top_stages r) /\
    (forall k, In k (stages df) -> notna k = true ->
       (exists k' n, In (k', n) (top_stages r) /\ cell_eqb k k' = true)
       \/ (List.length (top_stages r) = 3 /\
           forall e, In e (top_stages r) ->
             occurrences cell_eqb k (stages df) <= snd e)).
Proof.
  intros Hsv Hdf.
  destruct (extract_signals_total sort_values analysis df Hdf) as [r Hr].
  exists r. split; [exact Hr |].
  apply extract_signals_ok in Hr. destruct Hr as (avg & _ & _ & _ & _ & ->).
  cbn [top_stages].
  destruct (value_counts_sorted sort_values (stages df) Hsv)
    as (Hcnt & Hsort & Hdist & Hall).
  set (v := value_counts sort_values (stages df)) in *.
  rewrite <- (firstn_skipn 3 v) in Hsort, Hdist.
  apply StronglySorted_app_inv in Hsort. destruct Hsort as (Htop & _ & Hcross).
  apply StronglySorted_app_inv in Hdist. destruct Hdist as (Hdtop & _ & _).
  split; [apply firstn_le_length |].
  split; [intros k n H; apply Hcnt; now apply in_firstn in H |].
  split; [exact Htop |]. split; [exact Hdtop |].
  intros k Hin Hk. destruct (Hall k Hin Hk) as (k' & n & Hv & He).
  pose proof (Hcnt k' n Hv) as (_ & _ & Hn & _).
  rewrite <- (firstn_skipn 3 v) in Hv. apply in_app_or in Hv.
  destruct Hv as [Hv | Hv]; [left; eauto |].
  right. split; [now apply skipn_nonempty_firstn_full with (k', n) |].
  intros e Hetop. specialize (Hcross e (k', n) Hetop Hv).
  unfold count_ge in Hcross. cbn [snd] in Hcross.
  rewrite (occurrences_congr cell cell_eqb cell_eqb_sym cell_eqb_trans k k' _ He).
  lia.
Qed.

(** On the table with the stages a, b, c, c, d, d and the sort that leaves
    equal counts in reverse order, the tie c, d and the cut between a and b
    at the third place are both in play. *)
Lemma top_stages_by_count_witness :
  sorts_descending sort_ties_reversed /\
  is_feedback_table two_ties_table = true /\
  exists r,
    _extract_signals sort_ties_reversed "ok" two_ties_table = Ok r /\
    top_stages r = [(CStr "d", 2); (CStr "c", 2); (CStr "b", 1)] /\
    List.length (top_stages r) <= 3 /\
    StronglySorted count_ge (top_stages r) /\
    StronglySorted distinct_keys (top_stages r).
Proof.
  split; [exact sort_ties_reversed_sorts_descending |].
  split; [reflexivity |].
  destruct (top_stages_by_count sort_ties_reversed "ok" two_ties_table
              sort_ties_reversed_sorts_descending eq_refl)
    as (r & Hr & Hlen & _ & Hsort & Hdist & _).
  exists r. split; [exact Hr |]. split; [| auto].
  vm_compute in Hr. injection Hr as <-. reflexivity.
Defined.

(** C5 as stated fails: a sort by descending count need not keep equal
    counts in order of first appearance.  With the stages a, b, c, c, d, d
    and equal counts left in reverse order, [top_stages] is d, c, b: d
    comes before c, and b is kept instead of a. *)
Lemma top_stages_tie_not_first_appearance :
  sorts_descending sort_ties_reversed /\
  exists r,
    _extract_signals sort_ties_reversed "ok" two_ties_table = Ok r /\
    top_stages r = [(CStr "d", 2); (CStr "c", 2); (CStr "b", 1)] /\
    ~ StronglySorted (ranks_before (stages two_ties_table)) (top_stages r).
Proof.
  split; [exact sort_ties_reversed_sorts_descending |].
  eexists. split; [reflexivity |]. split; [reflexivity |].
  intros H. apply StronglySorted_inv in H. destruct H as [_ H].
  inversion H as [| ? ? Hdc _]; subst.
  unfold ranks_before in Hdc. simpl in Hdc. lia.
Qed.

(** With a stable sort the ranking of the specification holds: equal counts
    are in order of first appearance, and a stage left out is outranked by
    all three. *)
Lemma stable_sort_top_stages (analysis : string) (df : DataFrame) :
  is_feedback_table df = true ->
  exists r,
    _extract_signals stable_sort analysis df = Ok r /\
    List.length (top_stages r) <= 3 /\
    (forall k n, In (k, n) (top_stages r) ->
       notna k = true /\ In k (stages df) /\
       n = occurrences cell_eqb k (stages df) /\ 1 <= n) /\
    StronglySorted (ranks_before (stages df)) (top_stages r) /\
    (forall k, In k (stages df) -> notna k = true ->
       (exists k' n, In (k', n) (top_stages r) /\ cell_eqb k k' = true)
       \/ (List.length (top_stages r) = 3 /\
           forall e, In e (top_stages r) ->
             ranks_before (stages df) e
               (k, occurrences cell_eqb k (stages df)))).
Proof.
  intros Hdf. destruct (extract_signals_total stable_sort analysis df Hdf) as [r Hr].
  exists r. split; [exact Hr |].
  apply extract_signals_ok in Hr. destruct Hr as (avg & _ & _ & _ & _ & ->).
  cbn [top_stages].
  destruct (value_counts_stable_spec (stages df)) as (Hcnt & Hsort & Hall).
  set (v := value_counts stable_sort (stages df)) in *.
  rewrite <- (firstn_skipn 3 v) in Hsort.
  apply StronglySorted_app_inv in Hsort. destruct Hsort as (Htop & _ & Hcross).
  split; [apply firstn_le_length |].
  split; [intros k n H; apply Hcnt; now apply in_firstn in H |].
  split; [exact Htop |].
  intros k Hin Hk. destruct (Hall k Hin Hk) as (k' & n & Hv & He).
  rewrite <- (firstn_skipn 3 v) in Hv. apply in_app_or in Hv.
  destruct Hv as [Hv | Hv]; [left; eauto |].
  right. split; [now apply skipn_nonempty_firstn_full with (k', n) |].
  intros e Hetop. specialize (Hcross e (k', n) Hetop Hv).
  assert (Hn : n = occurrences cell_eqb k (stages df)).
  { rewrite (occurrences_congr cell cell_eqb cell_eqb_sym cell_eqb_trans k k' _ He).
    apply (Hcnt k' n). rewrite <- (firstn_skipn 3 v). apply in_or_app. now right. }
  unfold ranks_before in *. cbn [fst snd] in *.
  rewrite (first_index_congr cell cell_eqb cell_eqb_sym cell_eqb_trans k k' _ He).
  now rewrite <- Hn.
Qed.

Example tie_table_top_stages :
  exists r,
    _extract_signals stable_sort "ok" tie_table = Ok r /\
    top_stages r = [(CStr "payment", 3); (CStr "shipping", 1); (CStr "cart", 1)].
Proof.
  eexists. split; reflexivity.
Qed.

(** ** The sample of the specification *)

(** C6 (amended): on the sample table the analysis returns
    [total_analyzed = 3], [high_priority_count = 2],
    [top_stages = {"cart": 2, "shipping": 1}] and an [avg_signal_score] of
    20.5 / 3 = 41/6, which the report prints as 6.83.  The two stages have
    different counts, so this holds for every sort by descending count. *)
Theorem sample_table_signals (sort_values : sorter) (analysis : string) :
  sorts_descending sort_values ->
  exists r,
    _extract_signals sort_values analysis sample_table = Ok r /\
    total_analyzed r = 3 /\
    high_priority_count r = 2 /\
    top_stages r = [(CStr "cart", 2); (CStr "shipping", 1)] /\
    float_eq (avg_signal_score r) (Num (41 # 6)) /\
    format_2f (avg_signal_score r) = "6.83".
Proof.
  intros Hsv.
  destruct (extract_signals_total sort_values analysis sample_table eq_refl)
    as [r Hr].
  exists r. split; [exact Hr |].
  apply extract_signals_ok in Hr. destruct Hr as (avg & Hm & _ & _ & _ & ->).
  vm_compute in Hm. injection Hm as <-.
  cbn [total_analyzed high_priority_count top_stages avg_signal_score].
  split; [reflexivity |]. split; [reflexivity |]. split; [| split; reflexivity].
  unfold value_counts.
  change (count_table cell_eqb (filter notna (stages sample_table)))
    with [(CStr "cart", 2); (CStr "shipping", 1)].
  destruct (Hsv [(CStr "cart", 2); (CStr "shipping", 1)]) as [Hp Hs].
  apply Permutation_sym, Permutation_length_2_inv in Hp.
  destruct Hp as [-> | Hp]; [reflexivity |].
  rewrite Hp in Hs. exfalso.
  apply StronglySorted_inv in Hs. destruct Hs as [_ Hs].
  inversion Hs as [| ? ? Hge _]; subst. unfold count_ge in Hge. simpl in Hge. lia.
Qed.

Lemma sample_table_signals_witness :
  sorts_descending stable_sort /\
  exists r,
    _extract_signals stable_sort "ok" sample_table = Ok r /\
    total_analyzed r = 3 /\
    high_priority_count r = 2 /\
    top_stages r = [(CStr "cart", 2); (CStr "shipping", 1)] /\
    float_eq (avg_signal_score r) (Num (41 # 6)) /\
    format_2f (avg_signal_score r) = "6.83".
Proof.
  split; [exact stable_sort_sorts_descending |].
  apply (sample_table_signals stable_sort "ok" stable_sort_sorts_descending).
Defined.

(** C6 as stated fails in one field: the [avg_signal_score] of the result
    is not 6.83. *)
Lemma sample_table_avg_is_not_6_83 :
  exists r,
    _extract_signals stable_sort "ok" sample_table = Ok r /\
    ~ float_eq (avg_signal_score r) (Num 6.83).
Proof.
  eexists. split; [reflexivity |]. simpl. unfold Qeq. simpl. lia.
Qed.

(** The block and the report of a whole run on the sample table. *)
Example sample_table_block :
  _prepare_feedback decimal_repr sample_table
  = Ok (header_line ++ nl ++ nl
          ++ "[cart] slow load (score: 8.5)" ++ nl
          ++ "[shipping] confusing form (score: 9.0)" ++ nl)%string.
Proof.
  reflexivity.
Qed.

Example sample_table_report :
  run (main decimal_repr stable_sort ["analyzer.py"; "feedback.csv"])
    (sample_world sample_table "THEMES: slow pages")
  = (Ok tt,
     [Print "Analyzing feedback from: feedback.csv";
      ReadCsv "feedback.csv";
      messages_create (mkFeedbackAnalyzer (Some "sk-test"))
        (header_line ++ nl ++ nl
           ++ "[cart] slow load (score: 8.5)" ++ nl
           ++ "[shipping] confusing form (score: 9.0)" ++ nl)%string;
      Print (nl ++ "=== Analysis Results ===")%string;
      Print "Total entries analyzed: 3";
      Print "High-priority signals: 2";
      Print "Average signal score: 6.83";
      Print (nl ++ "Top checkout stages:")%string;
      Print "  - cart: 2";
      Print "  - shipping: 1";
      Print (nl ++ "=== Claude Analysis ===")%string;
      Print "THEMES: slow pages"]).
Proof.
  reflexivity.
Qed.

(** Without the [checkout_stage] column and with no row selected, the
    request is sent before the run fails in [_extract_signals]. *)
Example missing_stage_column_fails_after_call :
  run (analyze_batch decimal_repr stable_sort (mkFeedbackAnalyzer None) "feedback.csv")
    (sample_world
       (mkDataFrame ["feedback_text"; "signal_score"]
          [[CStr "fine"; CFloat (Num 3.0)]])
       "THEMES: none")
  = (Err (KeyError "checkout_stage"),
     [ReadCsv "feedback.csv";
      messages_create (mkFeedbackAnalyzer None) (header_line ++ nl ++ nl)%string]).
Proof.
  reflexivity.
Qed.

(** * Further properties of the program *)

(** ** How [analyze_batch] fails *)

(** X1: when the file cannot be read, [analyze_batch] raises the reader's
    exception and sends nothing to the service. *)
Theorem analyze_batch_load_failure (float_repr : Q -> string) (sort_values : sorter) (w : World)
    (self : FeedbackAnalyzer) (path : string) (e : exn) :
  files w path = Err e ->
  run (analyze_batch float_repr sort_values self path) w = (Err e, [ReadCsv path]).
Proof.
  intros Hfile. now rewrite analyze_batch_run, Hfile.
Qed.

Lemma analyze_batch_load_failure_witness :
  files (mkWorld (fun _ => None) (fun _ => Err (OtherError "No such file"))
           (fun _ _ => Ok ["unused"])) "missing.csv"
  = Err (OtherError "No such file") /\
  run (analyze_batch decimal_repr stable_sort (mkFeedbackAnalyzer None) "missing.csv")
    (mkWorld (fun _ => None) (fun _ => Err (OtherError "No such file"))
       (fun _ _ => Ok ["unused"]))
  = (Err (OtherError "No such file"), [ReadCsv "missing.csv"]).
Proof.
  split; [reflexivity |].
  apply (analyze_batch_load_failure decimal_repr stable_sort
           (mkWorld (fun _ => None) (fun _ => Err (OtherError "No such file"))
              (fun _ _ => Ok ["unused"]))
           (mkFeedbackAnalyzer None) "missing.csv" (OtherError "No such file")).
  reflexivity.
Defined.

Lemma series_gt_string (s : Series) :
  existsb (fun c => negb (is_float c)) s = true ->
  exists msg, series_gt s 7 = Err (TypeError msg).
Proof.
  induction s as [| c t IH]; simpl; [discriminate |].
  intros H. apply orb_true_iff in H.
  destruct c as [str | x]; simpl in *.
  - eexists. reflexivity.
  - destruct H as [H | H]; [discriminate |].
    destruct (IH H) as [msg ->]. exists msg. destruct x; reflexivity.
Qed.

Lemma score_column_string (df : DataFrame) :
  existsb (fun c => negb (is_float c))
    (map (fun row => field (columns df) row "signal_score") (values df))
  = existsb (fun row => negb (is_float (score_of df row))) (values df).
Proof.
  unfold score_of. induction (values df) as [| r t IH]; simpl; [reflexivity |].
  now rewrite IH.
Qed.

(** X2: when a cell of the score column is a string, the comparison with
    7.0 raises [TypeError] in [_prepare_feedback]: [analyze_batch] fails
    after the read and before any request. *)
Theorem analyze_batch_string_score (float_repr : Q -> string) (sort_values : sorter) (w : World)
    (self : FeedbackAnalyzer) (path : string) (df : DataFrame) :
  files w path = Ok df ->
  has_column df "signal_score" = true ->
  existsb (fun row => negb (is_float (score_of df row))) (values df) = true ->
  exists msg,
    _prepare_feedback float_repr df = Err (TypeError msg) /\
    run (analyze_batch float_repr sort_values self path) w
    = (Err (TypeError msg), [ReadCsv path]).
Proof.
  intros Hfile Hcol Hstr. rewrite <- score_column_string in Hstr.
  destruct (series_gt_string _ Hstr) as [msg Hgt]. exists msg.
  assert (Hp : _prepare_feedback float_repr df = Err (TypeError msg)).
  { unfold _prepare_feedback.
    rewrite (getitem_has_column df "signal_score" Hcol). cbn [rbind].
    now rewrite Hgt. }
  split; [exact Hp |]. now rewrite analyze_batch_run, Hfile, Hp.
Qed.

Lemma analyze_batch_string_score_witness :
  files (sample_world
           (mkDataFrame feedback_columns
              [[CStr "cart"; CStr "slow load"; CStr "high"]]) "ok")
    "feedback.csv"
  = Ok (mkDataFrame feedback_columns
          [[CStr "cart"; CStr "slow load"; CStr "high"]]) /\
  exists msg,
    run (analyze_batch decimal_repr stable_sort (mkFeedbackAnalyzer None) "feedback.csv")
      (sample_world
         (mkDataFrame feedback_columns
            [[CStr "cart"; CStr "slow load"; CStr "high"]]) "ok")
    = (Err (TypeError msg), [ReadCsv "feedback.csv"]).
Proof.
  split; [reflexivity |].
  destruct (analyze_batch_string_score decimal_repr stable_sort
              (sample_world
                 (mkDataFrame feedback_columns
                    [[CStr "cart"; CStr "slow load"; CStr "high"]]) "ok")
              (mkFeedbackAnalyzer None) "feedback.csv"
              (mkDataFrame feedback_columns
                 [[CStr "cart"; CStr "slow load"; CStr "high"]])
              eq_refl eq_refl eq_refl) as (msg & _ & H).
  exists msg. exact H.
Defined.

(** X3: whatever the world answers, [analyze_batch] reads the file first
    and calls [messages.create] at most once; the content of the call, when
    there is one, is the instructions with the block that
    [_prepare_feedback] returned for the table read inside them; and a
    result is only returned after the call. *)
Theorem analyze_batch_trace_shape (float_repr : Q -> string)
    (sort_values : sorter) (w : World) (self : FeedbackAnalyzer)
    (path : string) :
  ((exists e, run (analyze_batch float_repr sort_values self path) w
              = (Err e, [ReadCsv path]))
   \/ (exists df text,
         files w path = Ok df /\
         _prepare_feedback float_repr df = Ok text /\
         snd (run (analyze_batch float_repr sort_values self path) w)
         = [ReadCsv path;
            MessagesCreate (client_api_key self) "claude-sonnet-4-20250514"
              1500 "user" (request_head ++ text ++ request_tail)%string])) /\
  List.length
    (filter is_call
       (snd (run (analyze_batch float_repr sort_values self path) w))) <= 1.
Proof.
  rewrite analyze_batch_run.
  destruct (files w path) as [df | e]; [| split; [left; eauto | simpl; lia]].
  destruct (_prepare_feedback float_repr df) as [text | e] eqn:Hp;
    [| split; [left; eauto | simpl; lia]].
  assert (Htr : snd
            match service w (client_api_key self) (prompt text) with
            | Ok message =>
                match first_text message with
                | Ok analysis =>
                    (_extract_signals sort_values analysis df,
                     [ReadCsv path; messages_create self text])
                | Err e => (Err e, [ReadCsv path; messages_create self text])
                end
            | Err e => (Err e, [ReadCsv path; messages_create self text])
            end = [ReadCsv path; messages_create self text]).
  { destruct (service w (client_api_key self) (prompt text)) as [m | e];
      [destruct (first_text m) |]; reflexivity. }
  split.
  - right. exists df, text. auto.
  - rewrite Htr. simpl. lia.
Qed.

(** X4: when the [messages.create] call raises, [analyze_batch] raises the
    same exception after that one call: the program does not catch the
    exception and does not call again.  (Whatever the client does inside
    the call, its own retries included, is not part of the trace.) *)
Theorem analyze_batch_service_failure (float_repr : Q -> string) (sort_values : sorter) (w : World)
    (self : FeedbackAnalyzer) (path : string) (df : DataFrame)
    (text : string) (e : exn) :
  files w path = Ok df ->
  _prepare_feedback float_repr df = Ok text ->
  service w (client_api_key self) (prompt text) = Err e ->
  run (analyze_batch float_repr sort_values self path) w
  = (Err e, [ReadCsv path; messages_create self text]).
Proof.
  intros Hfile Hp Hs. now rewrite analyze_batch_run, Hfile, Hp, Hs.
Qed.

(** X5: when the service answers with an empty content list,
    [content[0]] raises and [analyze_batch] fails after the call, with no
    statistics returned. *)
Theorem analyze_batch_empty_answer (float_repr : Q -> string) (sort_values : sorter) (w : World)
    (self : FeedbackAnalyzer) (path : string) (df : DataFrame)
    (text : string) :
  files w path = Ok df ->
  _prepare_feedback float_repr df = Ok text ->
  service w (client_api_key self) (prompt text) = Ok [] ->
  exists msg,
    run (analyze_batch float_repr sort_values self path) w
    = (Err (OtherError msg), [ReadCsv path; messages_create self text]).
Proof.
  intros Hfile Hp Hs. rewrite analyze_batch_run, Hfile, Hp, Hs.
  eexists. reflexivity.
Qed.

(** ** When the two pure steps return *)

Lemma row_getitem_no_column (df : DataFrame) (row : list cell) (key : string) :
  has_column df key = false ->
  row_getitem (columns df) row key = Err (KeyError key).
Proof.
  unfold has_column, row_getitem.
  destruct (get_loc key (columns df)); [discriminate | reflexivity].
Qed.

(** With a float score column the function is its loop over the selected
    rows. *)
Lemma prepare_feedback_for_rows (float_repr : Q -> string) (df : DataFrame) :
  has_column df "signal_score" = true ->
  forallb (fun row => is_float (score_of df row)) (values df) = true ->
  _prepare_feedback float_repr df
  = for_rows float_repr (columns df) (selected df)
      (header_line ++ nl ++ nl)%string.
Proof.
  intros Hc Hf. unfold _prepare_feedback.
  pose proof (getitem_has_column df "signal_score" Hc) as Hg.
  rewrite Hg. cbn [rbind].
  pose proof (series_gt_float (map (fun row => field (columns df) row "signal_score")
                                   (values df))) as Hm.
  rewrite score_column_float in Hm. specialize (Hm Hf).
  rewrite Hm. cbn [rbind].
  destruct (high_signal_rows df Hg Hm) as [_ Hsel].
  unfold iterrows, getitem_mask. cbn [columns values]. now rewrite Hsel.
Qed.

Lemma prepare_feedback_ok_score (float_repr : Q -> string) (df : DataFrame)
    (text : string) :
  _prepare_feedback float_repr df = Ok text ->
  has_column df "signal_score" = true /\
  forallb (fun row => is_float (score_of df row)) (values df) = true.
Proof.
  unfold _prepare_feedback. intros H. inv_bind H. inv_bind H.
  destruct (high_signal_rows df Hx Hx0) as [Hf _].
  apply getitem_ok in Hx. destruct Hx as [Hc _]. auto.
Qed.

(** X6: [_prepare_feedback] returns exactly when the score column is there
    and holds floats and, unless no row is selected, the stage and text
    columns are there too: a table without them and with no row above the
    threshold is formatted without error. *)
Theorem prepare_feedback_returns_iff (float_repr : Q -> string)
    (df : DataFrame) :
  (exists text, _prepare_feedback float_repr df = Ok text) <->
  has_column df "signal_score" = true /\
  forallb (fun row => is_float (score_of df row)) (values df) = true /\
  (selected df = [] \/
   (has_column df "checkout_stage" = true /\
    has_column df "feedback_text" = true)).
Proof.
  split.
  - intros [text H].
    destruct (prepare_feedback_ok_score float_repr df text H) as [Hc Hf].
    split; [exact Hc |]. split; [exact Hf |].
    rewrite (prepare_feedback_for_rows float_repr df Hc Hf) in H.
    destruct (selected df) as [| row rest]; [now left |]. right.
    cbn [for_rows] in H. unfold append_row in H.
    destruct (has_column df "checkout_stage") eqn:Hs.
    2:{ rewrite (row_getitem_no_column df row _ Hs) in H. discriminate. }
    rewrite (row_getitem_has_column df row _ Hs) in H. cbn [rbind] in H.
    destruct (has_column df "feedback_text") eqn:Ht; [auto |].
    rewrite (row_getitem_no_column df row _ Ht) in H. discriminate.
  - intros (Hc & Hf & Hrows).
    rewrite (prepare_feedback_for_rows float_repr df Hc Hf).
    destruct Hrows as [-> | [Hs Ht]].
    + eexists. reflexivity.
    + rewrite (for_rows_render float_repr df (selected df) _ Hs Ht Hc). eauto.
Qed.

(** X7: with a row selected, a missing column is reported by the first
    lookup of the f-string that fails: [checkout_stage] before
    [feedback_text]. *)
Theorem prepare_feedback_missing_field (float_repr : Q -> string)
    (df : DataFrame) :
  has_column df "signal_score" = true ->
  forallb (fun row => is_float (score_of df row)) (values df) = true ->
  selected df <> [] ->
  (has_column df "checkout_stage" = false ->
   _prepare_feedback float_repr df = Err (KeyError "checkout_stage")) /\
  (has_column df "checkout_stage" = true ->
   has_column df "feedback_text" = false ->
   _prepare_feedback float_repr df = Err (KeyError "feedback_text")).
Proof.
  intros Hc Hf Hsel.
  rewrite (prepare_feedback_for_rows float_repr df Hc Hf).
  destruct (selected df) as [| row rest]; [congruence |].
  cbn [for_rows]. unfold append_row. split.
  - intros Hs. now rewrite (row_getitem_no_column df row _ Hs).
  - intros Hs Ht. rewrite (row_getitem_has_column df row _ Hs). cbn [rbind].
    now rewrite (row_getitem_no_column df row _ Ht).
Qed.

Lemma mean_float_returns (s : Series) :
  forallb is_float s = true -> exists avg, mean s = Ok avg.
Proof.
  intros H. rewrite (mean_present s H). eauto.
Qed.

(** The result of [_extract_signals] in closed form. *)
Lemma extract_signals_closed (sort_values : sorter) (analysis : string) (df : DataFrame)
    (avg : pyfloat) :
  has_column df "signal_score" = true ->
  forallb (fun row => is_float (score_of df row)) (values df) = true ->
  has_column df "checkout_stage" = true ->
  mean (map (score_of df) (values df)) = Ok avg ->
  _extract_signals sort_values analysis df
  = Ok (mkSignals analysis (List.length (selected df))
          (List.length (values df))
          (firstn 3 (value_counts sort_values (stages df))) avg).
Proof.
  intros Hc Hf Hs Hm. unfold _extract_signals.
  pose proof (getitem_has_column df "signal_score" Hc) as Hg.
  rewrite Hg. cbn [rbind].
  pose proof (series_gt_float (map (fun row => field (columns df) row "signal_score")
                                   (values df))) as Hgt.
  rewrite score_column_float in Hgt. specialize (Hgt Hf).
  rewrite Hgt. cbn [rbind].
  destruct (high_signal_rows df Hg Hgt) as [_ Hsel].
  rewrite (getitem_has_column df "checkout_stage" Hs). cbn [rbind].
  unfold score_of in Hm. rewrite Hm. cbn [rbind].
  unfold len, getitem_mask, to_dict, head. cbn [values]. now rewrite Hsel.
Qed.

(** X8: [_extract_signals] returns exactly when the score column is there
    and holds floats and the stage column is there; the [feedback_text]
    column plays no part in the statistics. *)
Theorem extract_signals_returns_iff (sort_values : sorter) (analysis : string) (df : DataFrame) :
  (exists r, _extract_signals sort_values analysis df = Ok r) <->
  has_column df "signal_score" = true /\
  forallb (fun row => is_float (score_of df row)) (values df) = true /\
  has_column df "checkout_stage" = true.
Proof.
  split.
  - intros [r H]. apply extract_signals_ok in H.
    destruct H as (avg & _ & Hc & Hs & Hf & _). auto.
  - intros (Hc & Hf & Hs).
    destruct (mean_float_returns (map (score_of df) (values df))) as [avg Hm].
    { rewrite <- Hf. clear. induction (values df) as [| x t IH]; simpl;
        [reflexivity | now rewrite IH]. }
    rewrite (extract_signals_closed sort_values analysis df avg Hc Hf Hs Hm). eauto.
Qed.

(** X9: the statistics do not depend on the text of the analysis: with
    another text the function returns the same counts, stages and average,
    and the text itself is returned unchanged as [summary]. *)
Theorem statistics_independent_of_summary (sort_values : sorter) (analysis1 analysis2 : string)
    (df : DataFrame) (r1 : Signals) :
  _extract_signals sort_values analysis1 df = Ok r1 ->
  summary r1 = analysis1 /\
  _extract_signals sort_values analysis2 df
  = Ok (mkSignals analysis2 (high_priority_count r1) (total_analyzed r1)
          (top_stages r1) (avg_signal_score r1)).
Proof.
  intros H. apply extract_signals_ok in H.
  destruct H as (avg & Hm & Hc & Hs & Hf & ->).
  split; [reflexivity |]. cbn [high_priority_count total_analyzed top_stages
                                avg_signal_score].
  now apply extract_signals_closed.
Qed.

Lemma statistics_independent_of_summary_witness :
  exists r1,
    _extract_signals stable_sort "THEMES: a" sample_table = Ok r1 /\
    summary r1 = "THEMES: a" /\
    _extract_signals stable_sort "THEMES: b" sample_table
    = Ok (mkSignals "THEMES: b" (high_priority_count r1) (total_analyzed r1)
            (top_stages r1) (avg_signal_score r1)).
Proof.
  eexists. split; [reflexivity |].
  apply (statistics_independent_of_summary stable_sort "THEMES: a" "THEMES: b"
           sample_table).
  reflexivity.
Defined.

(** X10: the block and the statistics agree on the selection: on a feedback
    table the block is the header followed by exactly
    [high_priority_count] lines. *)
Theorem block_lines_match_high_priority_count (float_repr : Q -> string) (sort_values : sorter)
    (analysis : string) (df : DataFrame) :
  is_feedback_table df = true ->
  exists r lines,
    _extract_signals sort_values analysis df = Ok r /\
    _prepare_feedback float_repr df
    = Ok (header_line ++ nl ++ nl ++ join_lines lines)%string /\
    List.length lines = high_priority_count r /\
    lines = map (render_row float_repr df) (selected df).
Proof.
  intros Hdf. destruct (extract_signals_total sort_values analysis df Hdf) as [r Hr].
  exists r, (map (render_row float_repr df) (selected df)).
  split; [exact Hr |]. split; [now apply prepare_feedback_selected |].
  apply extract_signals_ok in Hr. destruct Hr as (avg & _ & _ & _ & _ & ->).
  cbn [high_priority_count]. now rewrite length_map.
Qed.

Lemma block_lines_match_high_priority_count_witness :
  is_feedback_table sample_table = true /\
  exists r lines,
    _extract_signals stable_sort "ok" sample_table = Ok r /\
    _prepare_feedback decimal_repr sample_table
    = Ok (header_line ++ nl ++ nl ++ join_lines lines)%string /\
    List.length lines = high_priority_count r /\
    lines = map (render_row decimal_repr sample_table) (selected sample_table).
Proof.
  split; [reflexivity |].
  apply (block_lines_match_high_priority_count decimal_repr stable_sort "ok" sample_table).
  reflexivity.
Defined.

Lemma analyze_batch_service_failure_witness :
  files (failing_service_world calm_table (OtherError "overloaded"))
    "feedback.csv" = Ok calm_table /\
  _prepare_feedback decimal_repr calm_table
  = Ok (header_line ++ nl ++ nl)%string /\
  service (failing_service_world calm_table (OtherError "overloaded"))
    (Some "sk-test") (prompt (header_line ++ nl ++ nl)%string)
  = Err (OtherError "overloaded") /\
  run (analyze_batch decimal_repr stable_sort (mkFeedbackAnalyzer (Some "sk-test"))
         "feedback.csv")
    (failing_service_world calm_table (OtherError "overloaded"))
  = (Err (OtherError "overloaded"),
     [ReadCsv "feedback.csv";
      messages_create (mkFeedbackAnalyzer (Some "sk-test"))
        (header_line ++ nl ++ nl)%string]).
Proof.
  split; [reflexivity |]. split; [reflexivity |]. split; [reflexivity |].
  apply (analyze_batch_service_failure decimal_repr stable_sort
           (failing_service_world calm_table (OtherError "overloaded"))
           (mkFeedbackAnalyzer (Some "sk-test")) "feedback.csv" calm_table
           (header_line ++ nl ++ nl)%string (OtherError "overloaded"));
    reflexivity.
Defined.

Lemma analyze_batch_empty_answer_witness :
  files (silent_service_world calm_table) "feedback.csv" = Ok calm_table /\
  _prepare_feedback decimal_repr calm_table
  = Ok (header_line ++ nl ++ nl)%string /\
  service (silent_service_world calm_table) (Some "sk-test")
    (prompt (header_line ++ nl ++ nl)%string) = Ok [] /\
  exists msg,
    run (analyze_batch decimal_repr stable_sort (mkFeedbackAnalyzer (Some "sk-test"))
           "feedback.csv")
      (silent_service_world calm_table)
    = (Err (OtherError msg),
       [ReadCsv "feedback.csv";
        messages_create (mkFeedbackAnalyzer (Some "sk-test"))
          (header_line ++ nl ++ nl)%string]).
Proof.
  split; [reflexivity |]. split; [reflexivity |]. split; [reflexivity |].
  apply (analyze_batch_empty_answer decimal_repr stable_sort
           (silent_service_world calm_table)
           (mkFeedbackAnalyzer (Some "sk-test")) "feedback.csv" calm_table
           (header_line ++ nl ++ nl)%string);
    reflexivity.
Defined.

Lemma prepare_feedback_missing_field_witness :
  has_column table_without_stage "signal_score" = true /\
  forallb (fun row => is_float (score_of table_without_stage row))
    (values table_without_stage) = true /\
  selected table_without_stage <> [] /\
  _prepare_feedback decimal_repr table_without_stage
  = Err (KeyError "checkout_stage").
Proof.
  split; [reflexivity |]. split; [reflexivity |]. split; [discriminate |].
  apply (proj1 (prepare_feedback_missing_field decimal_repr
                  table_without_stage eq_refl eq_refl
                  ltac:(discriminate))).
  reflexivity.
Defined.

Example table_without_text_error :
  _prepare_feedback decimal_repr table_without_text
  = Err (KeyError "feedback_text").
Proof.
  reflexivity.
Qed.

(** ** The counts of [top_stages] *)

Section CountSums.
Variable K : Type.
Variable eqb : K -> K -> bool.

Lemma bump_sum (x : K) (tbl : list (K * nat)) :
  list_sum (map snd (bump eqb x tbl)) = S (list_sum (map snd tbl)).
Proof.
  induction tbl as [| [k n] t IH]; simpl; [reflexivity |].
  destruct (eqb x k); simpl; [reflexivity |]. rewrite IH. lia.
Qed.

Lemma fold_bump_sum (l : list K) (acc : list (K * nat)) :
  list_sum (map snd (fold_left (fun tbl k => bump eqb k tbl) l acc))
  = List.length l + list_sum (map snd acc).
Proof.
  revert acc. induction l as [| x l IH]; intros acc; simpl; [reflexivity |].
  rewrite IH, bump_sum. lia.
Qed.

(** Every entry of the list is counted once. *)
Lemma count_table_sum (l : list K) :
  list_sum (map snd (count_table eqb l)) = List.length l.
Proof.
  unfold count_table. rewrite fold_bump_sum. simpl. lia.
Qed.

Lemma insert_desc_sum (x : K * nat) (l : list (K * nat)) :
  list_sum (map snd (insert_desc x l)) = snd x + list_sum (map snd l).
Proof.
  induction l as [| y t IH]; simpl; [reflexivity |].
  destruct (snd y <=? snd x); simpl; [reflexivity |]. rewrite IH. lia.
Qed.

Lemma sort_desc_sum (l : list (K * nat)) :
  list_sum (map snd (sort_desc l)) = list_sum (map snd l).
Proof.
  induction l as [| x t IH]; simpl; [reflexivity |].
  now rewrite insert_desc_sum, IH.
Qed.

Lemma firstn_sum_le (n : nat) (l : list (K * nat)) :
  list_sum (map snd (firstn n l)) <= list_sum (map snd l).
Proof.
  rewrite <- (firstn_skipn n l) at 2. rewrite map_app, list_sum_app. lia.
Qed.
End CountSums.

Lemma counts_sum_perm (l l' : list (cell * nat)) :
  Permutation l l' -> counts_sum l = counts_sum l'.
Proof.
  unfold counts_sum. intros H.
  induction H as [| x l l' H IH | x y l | l l' l'' H1 IH1 H2 IH2]; simpl;
    [reflexivity | now rewrite IH | lia | congruence].
Qed.

(** X11: under any sort that reorders by descending count, the counts of
    [top_stages] add up to at most [total_analyzed]: no row is counted
    twice, and rows of stages beyond the third or without a stage are not
    counted. *)
Theorem top_stages_counts_le_total (sort_values : sorter)
    (analysis : string) (df : DataFrame) (r : Signals) :
  sorts_descending sort_values ->
  _extract_signals sort_values analysis df = Ok r ->
  counts_sum (top_stages r) <= total_analyzed r.
Proof.
  intros Hsv H. apply extract_signals_ok in H.
  destruct H as (avg & _ & _ & _ & _ & ->).
  cbn [top_stages total_analyzed].
  eapply Nat.le_trans; [apply firstn_sum_le |].
  fold (counts_sum (value_counts sort_values (stages df))).
  unfold value_counts.
  rewrite (counts_sum_perm _ _ (proj1 (Hsv _))).
  unfold counts_sum. rewrite count_table_sum.
  eapply Nat.le_trans; [apply filter_length_le |].
  unfold stages. now rewrite length_map.
Qed.

Lemma top_stages_counts_le_total_witness :
  sorts_descending sort_ties_reversed /\
  exists r,
    _extract_signals sort_ties_reversed "ok" two_ties_table = Ok r /\
    counts_sum (top_stages r) <= total_analyzed r.
Proof.
  split; [exact sort_ties_reversed_sorts_descending |].
  eexists. split; [reflexivity |].
  apply (top_stages_counts_le_total sort_ties_reversed "ok" two_ties_table _
           sort_ties_reversed_sorts_descending).
  reflexivity.
Defined.

(** X12: under any sort that reorders by descending count, no stage value
    appears twice among the keys of [top_stages], so building the dict
    loses no entry. *)
Theorem top_stages_keys_distinct (sort_values : sorter) (analysis : string)
    (df : DataFrame) (r : Signals) :
  sorts_descending sort_values ->
  _extract_signals sort_values analysis df = Ok r ->
  StronglySorted distinct_keys (top_stages r).
Proof.
  intros Hsv H. apply extract_signals_ok in H.
  destruct H as (avg & _ & _ & _ & _ & ->). cbn [top_stages].
  destruct (value_counts_sorted sort_values (stages df) Hsv)
    as (_ & _ & Hd & _).
  rewrite <- (firstn_skipn 3 (value_counts sort_values (stages df))) in Hd.
  now apply StronglySorted_app_inv in Hd.
Qed.

Lemma top_stages_keys_distinct_witness :
  sorts_descending sort_ties_reversed /\
  exists r,
    _extract_signals sort_ties_reversed "ok" two_ties_table = Ok r /\
    StronglySorted distinct_keys (top_stages r).
Proof.
  split; [exact sort_ties_reversed_sorts_descending |].
  eexists. split; [reflexivity |].
  apply (top_stages_keys_distinct sort_ties_reversed "ok" two_ties_table _
           sort_ties_reversed_sorts_descending).
  reflexivity.
Defined.

(** ** Bounds on the average *)

Lemma Qnat_succ (n : nat) : (Qnat (S n) == Qnat n + 1)%Q.
Proof.
  unfold Qnat. rewrite Nat2Z.inj_succ, <- Z.add_1_r, inject_Z_plus.
  reflexivity.
Qed.

Lemma nansum_upper (s : Series) (t hi : Q) :
  nansum s = Ok t ->
  (forall p, In (CFloat (Num p)) s -> (p <= hi)%Q) ->
  (t <= hi * Qnat (count_notna s))%Q.
Proof.
  unfold count_notna. revert t.
  induction s as [| c s IH]; simpl; intros t Ht Hb.
  - inversion Ht. unfold Qnat. simpl. rewrite Qmult_0_r. apply Qle_refl.
  - destruct c as [str | [p | ]]; [discriminate | |].
    + inv_bind Ht. inversion Ht; subst t.
      cbn [notna List.length]. rewrite Qnat_succ, Qmult_plus_distr_r, Qmult_1_r.
      rewrite (Qplus_comm (hi * _)). apply Qplus_le_compat.
      * apply Hb. now left.
      * apply IH; [exact Hx |]. intros q Hq. apply Hb. now right.
    + cbn [notna]. apply IH; [exact Ht |]. intros q Hq. apply Hb. now right.
Qed.

Lemma mean_upper (s : Series) (q hi : Q) :
  mean s = Ok (Num q) ->
  (forall p, In (CFloat (Num p)) s -> (p <= hi)%Q) ->
  (q <= hi)%Q.
Proof.
  unfold mean. intros H Hb. inv_bind H.
  destruct (count_notna s) as [| n] eqn:Hn; [discriminate |].
  inversion H; subst q.
  pose proof (nansum_upper s x hi Hx Hb) as Hu. rewrite Hn in Hu.
  apply Qle_shift_div_r; [apply Qnat_pos | exact Hu].
Qed.

Lemma score_cell_in (df : DataFrame) (p : Q) :
  In (CFloat (Num p)) (map (score_of df) (values df)) ->
  exists row, In row (values df) /\ score_of df row = CFloat (Num p).
Proof.
  intros H. apply in_map_iff in H. destruct H as (row & Hrow & Hin). eauto.
Qed.

(** X14: an average above 7.0 is only reported when at least one row is
    of high priority. *)
Theorem avg_above_threshold_has_high_priority (sort_values : sorter) (analysis : string)
    (df : DataFrame) (r : Signals) (q : Q) :
  _extract_signals sort_values analysis df = Ok r ->
  avg_signal_score r = Num q ->
  (7 < q)%Q ->
  1 <= high_priority_count r.
Proof.
  intros H Hq Hlt. apply extract_signals_ok in H.
  destruct H as (avg & Hm & _ & _ & _ & ->).
  cbn [avg_signal_score high_priority_count] in *. subst avg.
  destruct (selected df) as [| row rest] eqn:Hsel; [| simpl; lia].
  exfalso. apply (Qlt_not_le _ _ Hlt). apply (mean_upper _ q 7 Hm).
  intros p Hp. apply score_cell_in in Hp. destruct Hp as (row & Hin & Hs).
  destruct (Qlt_le_dec 7 p) as [Hgt | Hle]; [| exact Hle].
  assert (Hrow : In row (selected df)).
  { apply filter_In. split; [exact Hin |]. apply above_threshold_spec. eauto. }
  rewrite Hsel in Hrow. destruct Hrow.
Qed.

Lemma avg_above_threshold_has_high_priority_witness :
  exists r q,
    _extract_signals stable_sort "ok" table_with_missing_score = Ok r /\
    avg_signal_score r = Num q /\
    (7 < q)%Q /\
    1 <= high_priority_count r.
Proof.
  eexists. eexists. split; [reflexivity |]. split; [reflexivity |].
  split; [reflexivity |].
  apply (avg_above_threshold_has_high_priority stable_sort "ok" table_with_missing_score
           _ _ eq_refl eq_refl).
  reflexivity.
Defined.

Lemma arithmetic_mean_nan (xs : list pyfloat) :
  arithmetic_mean (filter is_num xs) = NaN <->
  forallb (fun x => negb (is_num x)) xs = true.
Proof.
  unfold arithmetic_mean. rewrite fold_fadd_present.
  induction xs as [| [q | ] xs IH]; simpl.
  - tauto.
  - split; discriminate.
  - exact IH.
Qed.

(** X15: when no row has a score, on an empty table or on a table whose
    scores are all missing, the average is NaN. *)
Theorem avg_nan_when_no_score (sort_values : sorter) (analysis : string)
    (df : DataFrame) (r : Signals) :
  _extract_signals sort_values analysis df = Ok r ->
  forallb (fun x => negb (is_num x)) (scores df) = true ->
  avg_signal_score r = NaN.
Proof.
  intros H Hno. apply extract_signals_ok in H.
  destruct H as (avg & Hm & _ & _ & Hf & ->). cbn [avg_signal_score].
  rewrite mean_present in Hm.
  2:{ rewrite <- Hf. clear. induction (values df) as [| x t IH]; simpl;
      [reflexivity | now rewrite IH]. }
  rewrite map_map in Hm. fold (scores df) in Hm. inversion Hm.
  now apply arithmetic_mean_nan.
Qed.

Lemma avg_nan_when_no_score_witness :
  exists r,
    _extract_signals stable_sort "ok"
      (mkDataFrame feedback_columns
         [[CStr "cart"; CStr "no score given"; CFloat NaN];
          [CStr "cart"; CStr "none either"; CFloat NaN]]) = Ok r /\
    avg_signal_score r = NaN.
Proof.
  eexists. split; [reflexivity |].
  apply (avg_nan_when_no_score stable_sort "ok"
           (mkDataFrame feedback_columns
              [[CStr "cart"; CStr "no score given"; CFloat NaN];
               [CStr "cart"; CStr "none either"; CFloat NaN]]) _ eq_refl).
  reflexivity.
Defined.

(** ** The command line program *)

(** Started on a trace, [analyze_batch] appends what it does started on the
    empty trace. *)
Lemma analyze_batch_frame (float_repr : Q -> string) (sort_values : sorter) (self : FeedbackAnalyzer)
    (path : string) (w : World) (tr : list event) :
  analyze_batch float_repr sort_values self path w tr
  = (fst (run (analyze_batch float_repr sort_values self path) w),
     tr ++ snd (run (analyze_batch float_repr sort_values self path) w)).
Proof.
  rewrite analyze_batch_run.
  cbv [analyze_batch bind read_csv _call_claude_api emit ask lift ret
         messages_create].
  destruct (files w path) as [df | e]; [| reflexivity].
  destruct (_prepare_feedback float_repr df) as [text | e]; [| reflexivity].
  destruct (service w (client_api_key self) (prompt text)) as [message | e];
    [| cbn [fst snd]; now rewrite <- app_assoc].
  destruct (first_text message) as [analysis | e];
    [| cbn [fst snd]; now rewrite <- app_assoc].
  cbn [fst snd]. rewrite <- app_assoc.
  destruct (_extract_signals sort_values analysis df); reflexivity.
Qed.

(** When the analysis raises, the program ends with the same exception,
    having printed the announcement and nothing after it. *)
Lemma main_analysis_raises (float_repr : Q -> string) (sort_values : sorter)
    (w : World) (prog path : string) (more : list string) (e : exn)
    (tr : list event) :
  run (analyze_batch float_repr sort_values
         (mkFeedbackAnalyzer (environ w "ANTHROPIC_API_KEY")) path) w
  = (Err e, tr) ->
  run (main float_repr sort_values (prog :: path :: more)) w
  = (Err e, Print ("Analyzing feedback from: " ++ path)%string :: tr).
Proof.
  intros H. unfold run, main.
  change (List.length (prog :: path :: more) <? 2) with false.
  cbv [bind print emit __init__ ask ret py_or nth].
  rewrite analyze_batch_frame, H. reflexivity.
Qed.

Lemma analyze_batch_prints_nothing (float_repr : Q -> string) (sort_values : sorter) (w : World)
    (self : FeedbackAnalyzer) (path : string) :
  filter is_print (snd (run (analyze_batch float_repr sort_values self path) w)) = [].
Proof.
  rewrite analyze_batch_run.
  destruct (files w path) as [df | e]; [| reflexivity].
  destruct (_prepare_feedback float_repr df) as [text | e]; [| reflexivity].
  destruct (service w (client_api_key self) (prompt text)) as [message | e];
    [| reflexivity].
  destruct (first_text message); reflexivity.
Qed.

(** X17: there is no partial report: when the analysis raises, for
    whatever reason, the only line the program has printed is the
    announcement, and the program ends with that exception. *)
Theorem main_no_partial_report (float_repr : Q -> string) (sort_values : sorter) (w : World)
    (prog path : string) (more : list string) (e : exn) :
  fst (run (analyze_batch float_repr sort_values
              (mkFeedbackAnalyzer (environ w "ANTHROPIC_API_KEY")) path) w)
  = Err e ->
  fst (run (main float_repr sort_values (prog :: path :: more)) w) = Err e /\
  filter is_print (snd (run (main float_repr sort_values (prog :: path :: more)) w))
  = [Print ("Analyzing feedback from: " ++ path)%string].
Proof.
  intros H.
  pose proof (analyze_batch_prints_nothing float_repr sort_values w
                (mkFeedbackAnalyzer (environ w "ANTHROPIC_API_KEY")) path) as Hp.
  destruct (run (analyze_batch float_repr sort_values
                   (mkFeedbackAnalyzer (environ w "ANTHROPIC_API_KEY")) path) w)
    as [res tr] eqn:Hrun.
  cbn [fst snd] in *. subst res.
  rewrite (main_analysis_raises float_repr sort_values w prog path more e tr Hrun).
  split; [reflexivity |]. cbn [snd filter is_print]. now rewrite Hp.
Qed.

Lemma main_no_partial_report_witness :
  fst (run (analyze_batch decimal_repr stable_sort
              (mkFeedbackAnalyzer
                 (environ (sample_world table_without_score "ok")
                    "ANTHROPIC_API_KEY")) "feedback.csv")
         (sample_world table_without_score "ok"))
  = Err (KeyError "signal_score") /\
  fst (run (main decimal_repr stable_sort ["analyzer.py"; "feedback.csv"])
         (sample_world table_without_score "ok"))
  = Err (KeyError "signal_score") /\
  filter is_print
    (snd (run (main decimal_repr stable_sort ["analyzer.py"; "feedback.csv"])
            (sample_world table_without_score "ok")))
  = [Print "Analyzing feedback from: feedback.csv"].
Proof.
  split; [reflexivity |].
  apply (main_no_partial_report decimal_repr stable_sort
           (sample_world table_without_score "ok") "analyzer.py"
           "feedback.csv" [] (KeyError "signal_score")).
  reflexivity.
Defined.

(** ** The block and the prompt as strings *)

Lemma append_inv_head (a b c : string) :
  (a ++ b)%string = (a ++ c)%string -> b = c.
Proof.
  induction a as [| ch a IH]; simpl; intros H; [exact H |].
  injection H as H. now apply IH.
Qed.

Lemma list_ascii_of_string_append (a b : string) :
  list_ascii_of_string (a ++ b)
  = list_ascii_of_string a ++ list_ascii_of_string b.
Proof.
  induction a as [| ch a IH]; simpl; [reflexivity | now rewrite IH].
Qed.

Lemma append_inv_tail (a b c : string) :
  (a ++ c)%string = (b ++ c)%string -> a = b.
Proof.
  intros H. apply (f_equal list_ascii_of_string) in H.
  rewrite !list_ascii_of_string_append in H. apply app_inv_tail in H.
  apply (f_equal string_of_list_ascii) in H.
  now rewrite !string_of_list_ascii_of_string in H.
Qed.

(** X18: the prompt determines the block: two blocks that give the same
    request content are the same block. *)
Theorem prompt_injective (text1 text2 : string) :
  prompt text1 = prompt text2 -> text1 = text2.
Proof.
  unfold prompt. intros H.
  repeat (apply append_inv_head in H).
  now apply append_inv_tail in H.
Qed.

Lemma prompt_injective_witness :
  prompt (header_line ++ nl ++ nl) = prompt (header_line ++ nl ++ nl) /\
  (header_line ++ nl ++ nl)%string = (header_line ++ nl ++ nl)%string.
Proof.
  split; [reflexivity |].
  apply (prompt_injective (header_line ++ nl ++ nl) (header_line ++ nl ++ nl)).
  reflexivity.
Defined.

(** X19: on a feedback table the block is the bare header exactly when
    [high_priority_count] is 0. *)
Theorem header_only_iff_no_high_priority (float_repr : Q -> string) (sort_values : sorter)
    (analysis : string) (df : DataFrame) (r : Signals) :
  is_feedback_table df = true ->
  _extract_signals sort_values analysis df = Ok r ->
  (_prepare_feedback float_repr df = Ok (header_line ++ nl ++ nl)%string
   <-> high_priority_count r = 0).
Proof.
  intros Hdf Hr. apply extract_signals_ok in Hr.
  destruct Hr as (avg & _ & _ & _ & _ & ->). cbn [high_priority_count].
  rewrite (prepare_feedback_selected float_repr df Hdf).
  destruct (selected df) as [| row rest]; cbn [map join_lines fold_right].
  - rewrite !append_empty_r. split; reflexivity.
  - split; [| simpl; discriminate]. intros H. exfalso.
    injection H as H. discriminate H.
Qed.

Lemma header_only_iff_no_high_priority_witness :
  is_feedback_table calm_table = true /\
  exists r,
    _extract_signals stable_sort "ok" calm_table = Ok r /\
    high_priority_count r = 0 /\
    _prepare_feedback decimal_repr calm_table
    = Ok (header_line ++ nl ++ nl)%string.
Proof.
  split; [reflexivity |]. eexists. split; [reflexivity |].
  split; [reflexivity |].
  apply (header_only_iff_no_high_priority decimal_repr stable_sort "ok" calm_table _
           eq_refl eq_refl).
  reflexivity.
Defined.

Lemma filter_idem {A : Type} (f : A -> bool) (l : list A) :
  filter f (filter f l) = filter f l.
Proof.
  induction l as [| x t IH]; simpl; [reflexivity |].
  destruct (f x) eqn:E; simpl; [rewrite E |]; now rewrite IH.
Qed.

Lemma forallb_filter {A : Type} (f g : A -> bool) (l : list A) :
  forallb f l = true -> forallb f (filter g l) = true.
Proof.
  induction l as [| x t IH]; simpl; [reflexivity |].
  intros H. apply andb_true_iff in H. destruct H as [Hx Ht].
  destruct (g x); simpl; [rewrite Hx |]; now apply IH.
Qed.

(** X20: the block is built from the selected rows alone: dropping every
    row at or below the threshold from a feedback table beforehand leaves
    the block unchanged. *)
Theorem prepare_feedback_selected_rows_only (float_repr : Q -> string)
    (df : DataFrame) :
  is_feedback_table df = true ->
  _prepare_feedback float_repr (mkDataFrame (columns df) (selected df))
  = _prepare_feedback float_repr df.
Proof.
  intros Hdf.
  destruct (is_feedback_table_columns df Hdf) as (Hs & Ht & Hc & Hf).
  assert (Hdf' : is_feedback_table (mkDataFrame (columns df) (selected df))
                 = true).
  { unfold is_feedback_table.
    change (has_column (mkDataFrame (columns df) (selected df)))
      with (has_column df).
    rewrite Hs, Ht, Hc. cbn [andb values].
    apply (forallb_filter (fun row => is_float (score_of df row))). exact Hf. }
  rewrite (prepare_feedback_selected float_repr _ Hdf'),
          (prepare_feedback_selected float_repr df Hdf).
  assert (Hsel : selected (mkDataFrame (columns df) (selected df))
                 = selected df).
  { unfold selected at 1. cbn [values].
    apply (filter_idem (fun row => above_threshold (score_of df row))). }
  rewrite Hsel. reflexivity.
Qed.

Lemma prepare_feedback_selected_rows_only_witness :
  is_feedback_table sample_table = true /\
  _prepare_feedback decimal_repr
    (mkDataFrame (columns sample_table) (selected sample_table))
  = _prepare_feedback decimal_repr sample_table.
Proof.
  split; [reflexivity |].
  apply (prepare_feedback_selected_rows_only decimal_repr sample_table).
  reflexivity.
Defined.

(** ** A run that returns *)

(** X21: on a feedback table, when the service answers with at least one
    content block, [analyze_batch] returns the statistics of the table with
    the text of the first block as summary; later blocks are ignored, and
    the trace is the read followed by the one [messages.create] call, whose
    content is the instructions with the block of the table inside them. *)
Theorem analyze_batch_returns (float_repr : Q -> string)
    (sort_values : sorter) (w : World) (self : FeedbackAnalyzer)
    (path : string) (df : DataFrame) (answer : string) (more : list string) :
  files w path = Ok df ->
  is_feedback_table df = true ->
  service w (client_api_key self)
    (request_head ++ feedback_block float_repr df ++ request_tail)%string
  = Ok (answer :: more) ->
  exists r,
    run (analyze_batch float_repr sort_values self path) w
    = (Ok r,
       [ReadCsv path;
        MessagesCreate (client_api_key self) "claude-sonnet-4-20250514" 1500
          "user"
          (request_head ++ feedback_block float_repr df ++ request_tail)%string])
    /\
    _extract_signals sort_values answer df = Ok r /\
    summary r = answer /\
    total_analyzed r = List.length (values df).
Proof.
  intros Hfile Hdf Hs.
  destruct (extract_signals_total sort_values answer df Hdf) as [r Hr]. exists r.
  rewrite analyze_batch_run, Hfile.
  rewrite (prepare_feedback_selected float_repr df Hdf).
  fold (feedback_block float_repr df). rewrite prompt_request_content.
  unfold messages_create, request_content. rewrite Hs. cbn [first_text].
  rewrite Hr. split; [reflexivity |]. split; [reflexivity |].
  apply extract_signals_ok in Hr. destruct Hr as (avg & _ & _ & _ & _ & ->).
  split; reflexivity.
Qed.

Lemma analyze_batch_returns_witness :
  files (sample_world sample_table "THEMES: slow pages") "feedback.csv"
  = Ok sample_table /\
  is_feedback_table sample_table = true /\
  exists r,
    run (analyze_batch decimal_repr stable_sort
           (mkFeedbackAnalyzer (Some "sk-test")) "feedback.csv")
      (sample_world sample_table "THEMES: slow pages")
    = (Ok r,
       [ReadCsv "feedback.csv";
        MessagesCreate (Some "sk-test") "claude-sonnet-4-20250514" 1500 "user"
          (request_head ++ feedback_block decimal_repr sample_table
             ++ request_tail)%string]) /\
    _extract_signals stable_sort "THEMES: slow pages" sample_table = Ok r /\
    summary r = "THEMES: slow pages" /\
    total_analyzed r = List.length (values sample_table).
Proof.
  split; [reflexivity |]. split; [reflexivity |].
  apply (analyze_batch_returns decimal_repr stable_sort
           (sample_world sample_table "THEMES: slow pages")
           (mkFeedbackAnalyzer (Some "sk-test")) "feedback.csv" sample_table
           "THEMES: slow pages" []);
    reflexivity.
Defined.

(** X22: under any sort that reorders by descending count, when the table
    has at most three distinct stage values no count is dropped: the counts
    of [top_stages] add up to the number of rows that have a stage. *)
Theorem top_stages_complete (sort_values : sorter) (analysis : string)
    (df : DataFrame) (r : Signals) :
  sorts_descending sort_values ->
  _extract_signals sort_values analysis df = Ok r ->
  List.length (value_counts sort_values (stages df)) <= 3 ->
  top_stages r = value_counts sort_values (stages df) /\
  counts_sum (top_stages r) = List.length (filter notna (stages df)).
Proof.
  intros Hsv H Hlen. apply extract_signals_ok in H.
  destruct H as (avg & _ & _ & _ & _ & ->). cbn [top_stages].
  rewrite (firstn_all2 _ Hlen). split; [reflexivity |].
  unfold value_counts. rewrite (counts_sum_perm _ _ (proj1 (Hsv _))).
  unfold counts_sum. now rewrite count_table_sum.
Qed.

Lemma top_stages_complete_witness :
  sorts_descending stable_sort /\
  exists r,
    _extract_signals stable_sort "ok" sample_table = Ok r /\
    List.length (value_counts stable_sort (stages sample_table)) <= 3 /\
    counts_sum (top_stages r) = 3.
Proof.
  split; [exact stable_sort_sorts_descending |].
  eexists. split; [reflexivity |]. split; [simpl; lia |].
  apply (proj2 (top_stages_complete stable_sort "ok" sample_table _
                  stable_sort_sorts_descending eq_refl ltac:(simpl; lia))).
Defined.
